(** * Emotion_reg: the capture / classify / present loop of
      [emotion_recognition.py], embedded and verified.

    The Python classes [EmotionRecognitionSystem] and [EmotionGUI] are
    translated method by method.  Python's mutable object state and its
    exceptions become a state-and-exception monad over a [world]; the camera,
    the DeepFace model, the clocks and the keyboard are the environment and
    enter as per-tick inputs; what the program does to the outside (prints,
    windows, dialogs, threads, image files) is recorded in an event trace;
    the log files, which the program reads back, are kept in a file store.
    Python floats (confidences, [time.time()]) are taken as rationals. *)

From Stdlib Require Import QArith ZArith Lia Lqa Ascii String DecimalString DecimalNat.
From stdpp Require Import gmap strings list.

Set Warnings "-register-all".
Local Open Scope string_scope.
Local Open Scope list_scope.

(** ** Values *)

(** Frames: what [cap.read()] delivers, and what the program makes of it. *)
Definition scores := list (string * Q).

Inductive image :=
| Captured (n : nat)                                   (* a raw camera frame *)
| Flip (i : image)                                     (* cv2.flip(frame, 1) *)
| Annotated (i : image) (label : string) (conf : Q) (all : scores).
                                                       (* draw_emotion_info *)

(** [ImageTk.PhotoImage] of a frame converted and resized to 640x480. *)
Inductive photo := PhotoImage (i : image).

(** [datetime.now()] *)
Record datetime := {
  year : nat; month : nat; day : nat;
  hour : nat; minute : nat; second : nat; microsecond : nat }.

(** JSON documents, as they stand in a file.  An object lists its members
    in the order of the text, and a key may come more than once. *)
Inductive json :=
| JNull
| JBool (b : bool)
| JNum (q : Q)
| JStr (s : string)
| JArr (l : list json)
| JObj (l : list (string * json)).

(** A file holds a JSON document written with some indentation, or what
    cannot be loaded: bytes that [json.load] rejects (among them a document
    cut off half-way), or a file that cannot be opened for reading. *)
Inductive file :=
| JsonDoc (indent : option nat) (doc : json)
| Garbage (bytes : string).

(** Python exceptions that occur in this program.  [exn_str] is [str(e)].
    The text of an error the interpreter or a library raises is theirs and
    changes between versions (CPython up to 3.10 words UnboundLocalError as
    "local variable 'v' referenced before assignment"); the wording below is
    that of CPython 3.11 and later. *)
Inductive exn :=
| ModelError (msg : string)          (* raised inside DeepFace.analyze *)
| IndexError
| KeyError (k : string)
| UnboundLocalError (v : string)
| AttributeError (msg : string)
| JSONDecodeError
| OSError (msg : string)             (* open() fails, or a write does *)
| TypeError (msg : string)           (* json.dump meets a value it cannot encode *)
| QueueEmpty                         (* queue.Empty *)
| Exception (msg : string).

Definition exn_str (e : exn) : string :=
  match e with
  | ModelError m => m
  | IndexError => "list index out of range"
  | KeyError k => "'" +:+ k +:+ "'"
  | UnboundLocalError v =>
      "cannot access local variable '" +:+ v +:+
      "' where it is not associated with a value"
  | AttributeError m => m
  | JSONDecodeError => "Expecting value: line 1 column 1 (char 0)"
  | OSError m => m
  | TypeError m => m
  | QueueEmpty => ""
  | Exception m => m
  end.

(** What [DeepFace.analyze] answers: it raises, or returns one result dict
    or a list of them.  A dict may lack a key. *)
Record face := { f_dominant : option string; f_emotion : option scores }.

Inductive model_out :=
| Raises (msg : string)
| Faces (l : list face)
| Face (f : face).

(** ** Effects *)

Inductive event :=
| Printed (s : string)
| PrintedEmotion (label : string) (conf : Q)
      (* print(f"Emotion: {emotion.upper()} - Confidence: {confidence:.1f}%") *)
| Analyze (frame : image)                        (* DeepFace.analyze called *)
| SpeakThread (emotion : string) (conf : Q) (at_time : Q)
      (* threading.Thread(target=speak, daemon=True).start() *)
| WriteFile (path : string) (content : file)
| CamOpen (ok : bool)                            (* cv2.VideoCapture(0) *)
| CamSet (prop : string) (v : nat)
| CamRead (handle_open : bool)                   (* cap.read() *)
| CamRelease
| DestroyAllWindows
| ImShow (title : string) (frame : image)
| ImWrite (path : string) (frame : image)
| ShowError (title msg : string)                 (* messagebox.showerror *)
| ShowInfo (title msg : string)                  (* messagebox.showinfo *)
| VideoThread                   (* Thread(target=self.process_video).start() *)
| After (ms : nat).                              (* root.after(30, update_gui) *)

(** The [cv2.VideoCapture] handle. *)
Record camera := { opened : bool }.

(** The fields of [EmotionRecognitionSystem] that the methods read or write. *)
Record system := {
  cap : option camera;
  is_running : bool;
  current_emotion : string;
  current_confidence : Q;
  voice_enabled : bool;
  last_voice_time : Q;
  voice_cooldown : Q;
  tts_engine : bool             (* false: pyttsx3.init() failed, engine is None *)
}.

(** The threads that run [process_video]: where each one stands and its
    local [frame_count]. *)
Inductive pc :=
| AtWhile       (* about to test [while self.is_running] *)
| Reading       (* inside [cap.read()] *)
| Finished.     (* left the loop, or died of an exception *)

Record thread := { th_pc : pc; th_count : nat }.

(** The text of the confidence label. *)
Inductive conf_text :=
| ConfInit                 (* "Confidence: 0%" *)
| ConfFmt (c : Q).         (* f"Confidence: {confidence:.1f}%" *)

(** The fields and widgets of [EmotionGUI]. *)
Record gui_state := {
  g_is_running : bool;
  frame_queue : list (photo * string * Q);       (* queue.Queue() *)
  current_frame : option image;                  (* None: attribute not set *)
  video_label : option photo * string;           (* image and text *)
  emotion_label : string;
  confidence_label : conf_text;
  start_button : bool;                           (* true: tk.NORMAL *)
  stop_button : bool;
  timers : nat;                                  (* pending root.after calls *)
  threads : list thread
}.

(** [fs] holds the files under logs/, the only ones the program reads; the
    images that [cv2.imwrite] writes are on the [trace], and their names are
    never those of a log file. *)
Record world := {
  sys : system;
  gui : gui_state;
  fs : gmap string file;
  trace : list event
}.

Definition set_cap (c : option camera) (s : system) : system :=
  {| cap := c; is_running := is_running s;
     current_emotion := current_emotion s;
     current_confidence := current_confidence s;
     voice_enabled := voice_enabled s; last_voice_time := last_voice_time s;
     voice_cooldown := voice_cooldown s; tts_engine := tts_engine s |}.

Definition set_is_running (b : bool) (s : system) : system :=
  {| cap := cap s; is_running := b;
     current_emotion := current_emotion s;
     current_confidence := current_confidence s;
     voice_enabled := voice_enabled s; last_voice_time := last_voice_time s;
     voice_cooldown := voice_cooldown s; tts_engine := tts_engine s |}.

Definition set_current (e : string) (c : Q) (s : system) : system :=
  {| cap := cap s; is_running := is_running s;
     current_emotion := e; current_confidence := c;
     voice_enabled := voice_enabled s; last_voice_time := last_voice_time s;
     voice_cooldown := voice_cooldown s; tts_engine := tts_engine s |}.

Definition set_voice_enabled (b : bool) (s : system) : system :=
  {| cap := cap s; is_running := is_running s;
     current_emotion := current_emotion s;
     current_confidence := current_confidence s;
     voice_enabled := b; last_voice_time := last_voice_time s;
     voice_cooldown := voice_cooldown s; tts_engine := tts_engine s |}.

Definition set_last_voice_time (t : Q) (s : system) : system :=
  {| cap := cap s; is_running := is_running s;
     current_emotion := current_emotion s;
     current_confidence := current_confidence s;
     voice_enabled := voice_enabled s; last_voice_time := t;
     voice_cooldown := voice_cooldown s; tts_engine := tts_engine s |}.

(** ** The monad of Python methods: state, and a value or a raised exception *)

Inductive result (A : Type) :=
| Ok (a : A)
| Raise (e : exn).
Arguments Ok {A} a.
Arguments Raise {A} e.

Definition M (A : Type) : Type := world -> result A * world.

Definition ret {A} (a : A) : M A := fun w => (Ok a, w).

Definition bind {A B} (m : M A) (k : A -> M B) : M B :=
  fun w => match m w with
           | (Ok a, w') => k a w'
           | (Raise e, w') => (Raise e, w')
           end.

Definition raise {A} (e : exn) : M A := fun w => (Raise e, w).

(** [try: body  except Exception as e: handler] *)
Definition try_except {A} (body : M A) (handler : exn -> M A) : M A :=
  fun w => match body w with
           | (Ok a, w') => (Ok a, w')
           | (Raise e, w') => handler e w'
           end.

Declare Scope py_scope.
Delimit Scope py_scope with py.
Notation "x <- m ;; k" := (bind m (fun x => k))
  (at level 100, m at next level, right associativity) : py_scope.
Notation "m ;;; k" := (bind m (fun _ => k))
  (at level 100, right associativity) : py_scope.
Local Open Scope py_scope.

Definition emit (e : event) : M unit :=
  fun w => (Ok tt, {| sys := sys w; gui := gui w; fs := fs w;
                      trace := trace w ++ [e] |}).

Definition print (s : string) : M unit := emit (Printed s).

Definition get_sys : M system := fun w => (Ok (sys w), w).

Definition modify_sys (f : system -> system) : M unit :=
  fun w => (Ok tt, {| sys := f (sys w); gui := gui w; fs := fs w;
                      trace := trace w |}).

Definition get_gui : M gui_state := fun w => (Ok (gui w), w).

Definition modify_gui (f : gui_state -> gui_state) : M unit :=
  fun w => (Ok tt, {| sys := sys w; gui := f (gui w); fs := fs w;
                      trace := trace w |}).

Definition get_fs : M (gmap string file) := fun w => (Ok (fs w), w).

(** The content of a file is replaced. *)
Definition put_file (path : string) (c : file) : M unit :=
  fun w => (Ok tt, {| sys := sys w; gui := gui w; fs := <[path := c]> (fs w);
                      trace := trace w ++ [WriteFile path c] |}).

(** ** EmotionRecognitionSystem *)

(** [__init__]; [tts] tells whether [pyttsx3.init()] succeeded. *)
Definition init_system (tts : bool) : system :=
  {| cap := None; is_running := false;
     current_emotion := "Unknown"; current_confidence := 0;
     voice_enabled := true; last_voice_time := 0; voice_cooldown := 3;
     tts_engine := tts |}.

(** [EmotionGUI.__init__] and [setup_gui]. *)
Definition init_gui : gui_state :=
  {| g_is_running := false; frame_queue := []; current_frame := None;
     video_label := (None, "Camera feed will appear here");
     emotion_label := "Emotion: Unknown"; confidence_label := ConfInit;
     start_button := true; stop_button := false;
     timers := 0; threads := [] |}.

Definition init_world (tts : bool) (files : gmap string file) : world :=
  {| sys := init_system tts; gui := init_gui; fs := files;
     trace := if tts then []
              else [Printed "Warning: Text-to-speech not available"] |}.

(** [initialize_camera]; [ok] tells whether the device opens. *)
Definition initialize_camera (ok : bool) : M bool :=
  try_except
    (modify_sys (set_cap (Some {| opened := ok |}));;;
     emit (CamOpen ok);;;
     (if negb ok then raise (Exception "Could not open webcam") else ret tt);;;
     emit (CamSet "CAP_PROP_FRAME_WIDTH" 640);;;
     emit (CamSet "CAP_PROP_FRAME_HEIGHT" 480);;;
     ret true)
    (fun e =>
       print ("Error initializing camera: " +:+ exn_str e);;;
       ret false).

(** [d[k]] on a dict held as an association list. *)
Fixpoint assoc {A} (k : string) (d : list (string * A)) : option A :=
  match d with
  | [] => None
  | (k', v) :: d' => if String.eqb k k' then Some v else assoc k d'
  end.

Definition getitem {A} (k : string) (d : list (string * A)) : M A :=
  match assoc k d with
  | Some v => ret v
  | None => raise (KeyError k)
  end.

Definition field {A} (k : string) (o : option A) : M A :=
  match o with
  | Some v => ret v
  | None => raise (KeyError k)
  end.

(** The call [DeepFace.analyze(frame, actions=['emotion'], enforce_detection=False)]. *)
Definition DeepFace_analyze (frame : image) (out : model_out) : M (list face + face) :=
  emit (Analyze frame);;;
  match out with
  | Raises msg => raise (ModelError msg)
  | Faces l => ret (inl l)
  | Face f => ret (inr f)
  end.

Definition unknown_reading : string * Q * scores := ("unknown", 0%Q, []).

(** [detect_emotion] *)
Definition detect_emotion (frame : image) (out : model_out)
  : M (string * Q * scores) :=
  try_except
    (result <- DeepFace_analyze frame out;;
     result <- match result with
               | inl [] => raise IndexError
               | inl (r :: _) => ret r
               | inr r => ret r
               end;;
     dominant_emotion <- field "dominant_emotion" (f_dominant result);;
     emotion <- field "emotion" (f_emotion result);;
     confidence <- getitem dominant_emotion emotion;;
     ret (dominant_emotion, confidence, emotion))
    (fun e =>
       print ("Emotion detection error: " +:+ exn_str e);;;
       ret unknown_reading).

(** [a < b] on Python floats, decided. *)
Definition Qltb (a b : Q) : bool := negb (Qle_bool b a).

(** [speak_emotion]; [current_time] is what [time.time()] answers. *)
Definition speak_emotion (emotion : string) (confidence : Q) (current_time : Q)
  : M unit :=
  s <- get_sys;;
  if negb (tts_engine s) || negb (voice_enabled s) then ret tt
  else if Qltb (current_time - last_voice_time s) (voice_cooldown s) then ret tt
  else
    emit (SpeakThread emotion confidence current_time);;;
    modify_sys (set_last_voice_time current_time).

(** [if confidence > 70: self.speak_emotion(emotion, confidence)], as both
    loops have it after logging. *)
Definition notify (emotion : string) (confidence : Q) (current_time : Q)
  : M unit :=
  if Qltb 70 confidence
  then speak_emotion emotion confidence current_time
  else ret tt.

(** *** Formatting dates *)

Definition dec (n : nat) : string := NilEmpty.string_of_uint (Nat.to_uint n).

Fixpoint zeros (n : nat) : string :=
  match n with
  | O => ""
  | S n' => "0" +:+ zeros n'
  end.

(** A number in decimal, zero-padded to width [w] ([%m], [%d], [%H], ...). *)
Definition pad (w n : nat) : string :=
  zeros (w - String.length (dec n)) +:+ dec n.

(** [strftime('%Y%m%d')] *)
Definition strftime_Ymd (d : datetime) : string :=
  pad 4 (year d) +:+ pad 2 (month d) +:+ pad 2 (day d).

(** [strftime('%Y%m%d_%H%M%S')] *)
Definition strftime_Ymd_HMS (d : datetime) : string :=
  strftime_Ymd d +:+ "_" +:+ pad 2 (hour d) +:+ pad 2 (minute d) +:+ pad 2 (second d).

(** [isoformat()]: the fraction is printed only when it is not zero. *)
Definition isoformat (d : datetime) : string :=
  pad 4 (year d) +:+ "-" +:+ pad 2 (month d) +:+ "-" +:+ pad 2 (day d) +:+ "T" +:+
  pad 2 (hour d) +:+ ":" +:+ pad 2 (minute d) +:+ ":" +:+ pad 2 (second d) +:+
  (if Nat.eqb (microsecond d) 0 then "" else "." +:+ pad 6 (microsecond d)).

(** *** Logging *)

Definition json_of_scores (all : scores) : json :=
  JObj (map (fun kv => (fst kv, JNum (snd kv))) all).

Definition log_entry (timestamp emotion : string) (confidence : Q)
  (all_emotions : scores) : json :=
  JObj [("timestamp", JStr timestamp);
        ("dominant_emotion", JStr emotion);
        ("confidence", JNum confidence);
        ("all_emotions", json_of_scores all_emotions)].

Definition log_path (ymd : string) : string :=
  "logs/emotion_log_" +:+ ymd +:+ ".json".

(** [d[k] = v] on a dict: a key that is there keeps its place and takes the
    new value, a new key goes to the end. *)
Fixpoint dict_set {A} (k : string) (v : A) (d : list (string * A))
  : list (string * A) :=
  match d with
  | [] => [(k, v)]
  | (k', v') :: d' =>
      if String.eqb k k' then (k', v) :: d' else (k', v') :: dict_set k v d'
  end.

(** The dict built from the members of an object in the order of the text. *)
Definition dict {A} (members : list (string * A)) : list (string * A) :=
  fold_left (fun d kv => dict_set (fst kv) (snd kv) d) members [].

(** What [json.load] makes of a document: every object becomes a dict, so of
    a key that comes twice the last value is kept. *)
Fixpoint json_value (j : json) : json :=
  match j with
  | JArr l => JArr (map json_value l)
  | JObj l => JObj (dict (map (fun kv => (fst kv, json_value (snd kv))) l))
  | _ => j
  end.

(** [with open(path, 'r') as f: json.load(f)] *)
Definition json_load (path : string) : M json :=
  files <- get_fs;;
  match files !! path with
  | Some (JsonDoc _ doc) => ret (json_value doc)
  | Some (Garbage _) => raise JSONDecodeError
  | None => raise (OSError ("No such file or directory: '" +:+ path +:+ "'"))
  end.

(** How [with open(log_file, 'w') as f: json.dump(logs, f, indent=2)] ends,
    which the disk and the values to encode decide. *)
Inductive write_outcome :=
| Written                           (* the document is written in full *)
| OpenFails (msg : string)          (* open() raises; the file is not touched *)
| DumpFails (partial msg : string). (* open() has emptied the file, and
                                       json.dump raises with [partial] written *)

Definition json_dump (path : string) (doc : json) (wr : write_outcome) : M unit :=
  match wr with
  | Written => put_file path (JsonDoc (Some 2) doc)
  | OpenFails msg => raise (OSError msg)
  | DumpFails partial msg =>
      put_file path (Garbage partial);;;
      raise (TypeError msg)
  end.

(** [logs.append(x)]: only a list has the method. *)
Definition py_append (logs : json) (x : json) : M json :=
  match logs with
  | JArr l => ret (JArr (l ++ [x]))
  | _ => raise (AttributeError "object has no attribute 'append'")
  end.

(** [log_emotion]; [now1] and [now2] are the two [datetime.now()] readings,
    [wr] is how the write-back ends if it is reached. *)
Definition log_emotion (emotion : string) (confidence : Q) (all_emotions : scores)
  (now1 now2 : datetime) (wr : write_outcome) : M unit :=
  let timestamp := isoformat now1 in
  let entry := log_entry timestamp emotion confidence all_emotions in
  let log_file := log_path (strftime_Ymd now2) in
  try_except
    (files <- get_fs;;
     logs <- (if decide (is_Some (files !! log_file))
              then json_load log_file
              else ret (JArr []));;
     logs <- py_append logs entry;;
     json_dump log_file logs wr)
    (fun e => print ("Logging error: " +:+ exn_str e)).

(** [draw_emotion_info] draws onto the frame in place. *)
Definition draw_emotion_info (frame : image) (emotion : string) (confidence : Q)
  (all_emotions : scores) : image :=
  Annotated frame emotion confidence all_emotions.

(** [cleanup] *)
Definition cleanup : M unit :=
  modify_sys (set_is_running false);;;
  s <- get_sys;;
  match cap s with
  | Some _ => modify_sys (set_cap (Some {| opened := false |}));;; emit CamRelease
  | None => ret tt
  end;;;
  emit DestroyAllWindows;;;
  print "System stopped successfully!".

(** *** The loop *)

(** What the environment answers during one pass of a capture loop. *)
Record tick := {
  t_read : option image;     (* cap.read(): None when ret is False *)
  t_model : model_out;       (* DeepFace.analyze, if it is called *)
  t_time : Q;                (* time.time() *)
  t_now1 : datetime;         (* datetime.now(), first reading *)
  t_now2 : datetime;         (* datetime.now(), second reading *)
  t_write : write_outcome;   (* the write-back of the log, if it is reached *)
  t_key : Z                  (* cv2.waitKey(1) *)
}.

(** [self.cap.read()]: a handle that is not open delivers no frame. *)
Definition cap_read (env : option image) : M (option image) :=
  s <- get_sys;;
  match cap s with
  | None => raise (AttributeError "'NoneType' object has no attribute 'read'")
  | Some c => emit (CamRead (opened c));;;
              ret (if opened c then env else None)
  end.

Inductive ctl := Continue | Break.

(** How far a loop got on the ticks it was given. *)
Inductive loop_end :=
| Exited          (* the loop was left *)
| StillRunning.   (* the ticks are used up and the loop would go on *)

(** The local variables of [run_console_mode]; [all_emotions] is unbound
    until the first classification assigns it. *)
Record console_locals := {
  frame_count : nat;
  all_emotions : option scores
}.

Definition local_var {A} (name : string) (v : option A) : M A :=
  match v with
  | Some a => ret a
  | None => raise (UnboundLocalError name)
  end.

(** The block under [if frame_count % 3 == 0] of [run_console_mode]. *)
Definition console_classify (t : tick) (frame : image) : M scores :=
  r <- detect_emotion frame (t_model t);;
  let '(emotion, confidence, all_emotions) := r in
  (if negb (String.eqb emotion "unknown") then
     modify_sys (set_current emotion confidence);;;
     log_emotion emotion confidence all_emotions
       (t_now1 t) (t_now2 t) (t_write t);;;
     notify emotion confidence (t_time t);;;
     emit (PrintedEmotion emotion confidence)
   else ret tt);;;
  ret all_emotions.

(** One pass through the body of [while self.is_running] in
    [run_console_mode]. *)
Definition console_tick (t : tick) (l : console_locals)
  : M (ctl * console_locals) :=
  r <- cap_read (t_read t);;
  match r with
  | None => print "Error: Could not read frame";;; ret (Break, l)
  | Some frame =>
      let frame := Flip frame in
      let frame_count := S (frame_count l) in
      all <- (if Nat.eqb (frame_count mod 3) 0
              then a <- console_classify t frame;; ret (Some a)
              else ret (all_emotions l));;
      let l' := {| frame_count := frame_count; all_emotions := all |} in
      (* hasattr(self, 'current_emotion') holds since __init__ *)
      all_now <- local_var "all_emotions" all;;
      s <- get_sys;;
      let frame :=
        draw_emotion_info frame (current_emotion s) (current_confidence s) all_now in
      emit (ImShow "Emotion Recognition System" frame);;;
      let key := Z.land (t_key t) 255 in
      if Z.eqb key 113 (* ord('q') *) then ret (Break, l')
      else if Z.eqb key 118 (* ord('v') *) then
        modify_sys (fun s => set_voice_enabled (negb (voice_enabled s)) s);;;
        s <- get_sys;;
        print ("Voice feedback " +:+
               (if voice_enabled s then "enabled" else "disabled"));;;
        ret (Continue, l')
      else if Z.eqb key 115 (* ord('s') *) then
        let filename :=
          "emotion_screenshot_" +:+ strftime_Ymd_HMS (t_now1 t) +:+ ".jpg" in
        emit (ImWrite filename frame);;;
        print ("Screenshot saved as " +:+ filename);;;
        ret (Continue, l')
      else ret (Continue, l')
  end.

(** [while self.is_running: ...] over the ticks the environment supplies. *)
Fixpoint console_loop (ticks : list tick) (l : console_locals) : M loop_end :=
  s <- get_sys;;
  if negb (is_running s) then ret Exited
  else match ticks with
       | [] => ret StillRunning
       | t :: ts =>
           r <- console_tick t l;;
           match fst r with
           | Break => ret Exited
           | Continue => console_loop ts (snd r)
           end
       end.

(** How a front end's run ended. *)
Inductive run_end :=
| NotStarted      (* the camera did not open *)
| Stopped         (* the loop was left and [cleanup] ran *)
| Running.        (* the loop is still going *)

(** [run_console_mode] *)
Definition run_console_mode (cam_ok : bool) (ticks : list tick) : M run_end :=
  ok <- initialize_camera cam_ok;;
  if negb ok then ret NotStarted
  else
    print "🎭 Real-Time Emotion Recognition System Started!";;;
    print "Press 'q' to quit, 'v' to toggle voice, 's' to save screenshot";;;
    print "--------------------------------------------------";;;
    modify_sys (set_is_running true);;;
    e <- console_loop ticks {| frame_count := 0; all_emotions := None |};;
    match e with
    | StillRunning => ret Running
    | Exited => cleanup;;; ret Stopped
    end.

(** [main] with choice 1: whatever [run_console_mode] raises is printed, and
    the program ends. *)
Definition main_console (cam_ok : bool) (ticks : list tick) : M unit :=
  try_except
    (run_console_mode cam_ok ticks;;; ret tt)
    (fun e => print ("Error: " +:+ exn_str e)).

(** ** EmotionGUI *)

Definition set_g_is_running (b : bool) (g : gui_state) : gui_state :=
  {| g_is_running := b; frame_queue := frame_queue g;
     current_frame := current_frame g; video_label := video_label g;
     emotion_label := emotion_label g; confidence_label := confidence_label g;
     start_button := start_button g; stop_button := stop_button g;
     timers := timers g; threads := threads g |}.

Definition set_frame_queue (q : list (photo * string * Q)) (g : gui_state)
  : gui_state :=
  {| g_is_running := g_is_running g; frame_queue := q;
     current_frame := current_frame g; video_label := video_label g;
     emotion_label := emotion_label g; confidence_label := confidence_label g;
     start_button := start_button g; stop_button := stop_button g;
     timers := timers g; threads := threads g |}.

Definition set_current_frame (f : option image) (g : gui_state) : gui_state :=
  {| g_is_running := g_is_running g; frame_queue := frame_queue g;
     current_frame := f; video_label := video_label g;
     emotion_label := emotion_label g; confidence_label := confidence_label g;
     start_button := start_button g; stop_button := stop_button g;
     timers := timers g; threads := threads g |}.

Definition set_video_label (v : option photo * string) (g : gui_state)
  : gui_state :=
  {| g_is_running := g_is_running g; frame_queue := frame_queue g;
     current_frame := current_frame g; video_label := v;
     emotion_label := emotion_label g; confidence_label := confidence_label g;
     start_button := start_button g; stop_button := stop_button g;
     timers := timers g; threads := threads g |}.

Definition set_info_labels (e : string) (c : conf_text) (g : gui_state)
  : gui_state :=
  {| g_is_running := g_is_running g; frame_queue := frame_queue g;
     current_frame := current_frame g; video_label := video_label g;
     emotion_label := e; confidence_label := c;
     start_button := start_button g; stop_button := stop_button g;
     timers := timers g; threads := threads g |}.

Definition set_buttons (start stop : bool) (g : gui_state) : gui_state :=
  {| g_is_running := g_is_running g; frame_queue := frame_queue g;
     current_frame := current_frame g; video_label := video_label g;
     emotion_label := emotion_label g; confidence_label := confidence_label g;
     start_button := start; stop_button := stop;
     timers := timers g; threads := threads g |}.

Definition set_timers (n : nat) (g : gui_state) : gui_state :=
  {| g_is_running := g_is_running g; frame_queue := frame_queue g;
     current_frame := current_frame g; video_label := video_label g;
     emotion_label := emotion_label g; confidence_label := confidence_label g;
     start_button := start_button g; stop_button := stop_button g;
     timers := n; threads := threads g |}.

Definition set_threads (ts : list thread) (g : gui_state) : gui_state :=
  {| g_is_running := g_is_running g; frame_queue := frame_queue g;
     current_frame := current_frame g; video_label := video_label g;
     emotion_label := emotion_label g; confidence_label := confidence_label g;
     start_button := start_button g; stop_button := stop_button g;
     timers := timers g; threads := ts |}.

(** [str.upper()] on the ASCII labels the model uses. *)
Definition upper_ascii (c : ascii) : ascii :=
  let n := nat_of_ascii c in
  if Nat.leb 97 n && Nat.leb n 122 then ascii_of_nat (n - 32) else c.

Fixpoint upper (s : string) : string :=
  match s with
  | EmptyString => EmptyString
  | String c s' => String (upper_ascii c) (upper s')
  end.

(** [update_gui]: takes an item only when the queue is not empty, and
    schedules itself again while the session runs. *)
Definition update_gui : M unit :=
  try_except
    (g <- get_gui;;
     match frame_queue g with
     | [] => ret tt
     | (frame_tk, emotion, confidence) :: rest =>     (* get_nowait() *)
         modify_gui (set_frame_queue rest);;;
         modify_gui (set_video_label (Some frame_tk, ""));;;
         modify_gui (set_info_labels ("Emotion: " +:+ upper emotion)
                                     (ConfFmt confidence))
     end)
    (fun e => match e with
              | QueueEmpty => ret tt                  (* except queue.Empty: pass *)
              | _ => raise e
              end);;;
  g <- get_gui;;
  if g_is_running g
  then emit (After 30);;; modify_gui (fun g => set_timers (S (timers g)) g)
  else ret tt.

(** [start_camera] *)
Definition start_camera (cam_ok : bool) : M unit :=
  ok <- initialize_camera cam_ok;;
  if ok then
    modify_gui (set_g_is_running true);;;
    modify_gui (set_buttons false true);;;
    emit VideoThread;;;
    modify_gui (fun g =>
      set_threads (threads g ++ [{| th_pc := AtWhile; th_count := 0 |}]) g);;;
    update_gui
  else emit (ShowError "Error" "Could not initialize camera").

(** [stop_camera] *)
Definition stop_camera : M unit :=
  modify_gui (set_g_is_running false);;;
  cleanup;;;
  modify_gui (set_buttons true false);;;
  modify_gui (set_video_label (None, "Camera stopped")).

(** [toggle_voice] *)
Definition toggle_voice : M unit :=
  modify_sys (fun s => set_voice_enabled (negb (voice_enabled s)) s);;;
  s <- get_sys;;
  emit (ShowInfo "Voice Status"
          ("Voice feedback " +:+
           (if voice_enabled s then "enabled" else "disabled"))).

(** [take_screenshot] *)
Definition take_screenshot (now : datetime) : M unit :=
  g <- get_gui;;
  match current_frame g with
  | Some frame =>
      let filename := "gui_screenshot_" +:+ strftime_Ymd_HMS now +:+ ".jpg" in
      emit (ImWrite filename frame);;;
      emit (ShowInfo "Screenshot" ("Screenshot saved as " +:+ filename))
  | None => ret tt
  end.

(** The block under [if frame_count % 3 == 0] of [process_video]. *)
Definition video_classify (t : tick) (frame : image) : M unit :=
  r <- detect_emotion frame (t_model t);;
  let '(emotion, confidence, all_emotions) := r in
  if negb (String.eqb emotion "unknown") then
    modify_sys (set_current emotion confidence);;;
    log_emotion emotion confidence all_emotions
      (t_now1 t) (t_now2 t) (t_write t);;;
    notify emotion confidence (t_time t)
  else ret tt.

(** One pass through the body of [while self.is_running] in
    [process_video]. *)
Definition video_tick (t : tick) (frame_count : nat) : M (ctl * nat) :=
  r <- cap_read (t_read t);;
  match r with
  | None => ret (Break, frame_count)
  | Some frame =>
      let frame := Flip frame in
      modify_gui (set_current_frame (Some frame));;;
      let frame_count := S frame_count in
      (if Nat.eqb (frame_count mod 3) 0
       then video_classify t frame
       else ret tt);;;
      let frame_tk := PhotoImage frame in
      s <- get_sys;;
      modify_gui (fun g =>
        set_frame_queue
          (frame_queue g ++ [(frame_tk, current_emotion s, current_confidence s)]) g);;;
      ret (Continue, frame_count)
  end.

(** [process_video] run on its own, over the ticks the environment supplies. *)
Fixpoint process_video (ticks : list tick) (frame_count : nat) : M loop_end :=
  g <- get_gui;;
  if negb (g_is_running g) then ret Exited
  else match ticks with
       | [] => ret StillRunning
       | t :: ts =>
           r <- video_tick t frame_count;;
           match fst r with
           | Break => ret Exited
           | Continue => process_video ts (snd r)
           end
       end.

(** *** The GUI with its threads

    The Tk main thread runs the button commands and the [update_gui] timer;
    every [start_camera] adds a thread running [process_video].  A schedule
    lists who moves next.  A video thread moves in two steps: it tests the
    flag and enters [cap.read()], then the read returns and the rest of the
    loop body runs.  That rest is one step: what two video threads can do to
    each other inside it (between the cooldown test of [speak_emotion] and
    its update of [last_voice_time], between the reading of a log file and
    its write-back) is not followed, so what is said below about
    notifications and log files is said of one video thread. *)
Inductive action :=
| Start (cam_ok : bool)        (* the Start Camera button *)
| Stop                         (* the Stop Camera button *)
| ToggleVoice
| Screenshot (now : datetime)
| Timer                        (* a scheduled [update_gui] fires *)
| Bg (tid : nat) (t : tick).   (* video thread [tid] moves *)

(** A Tk callback: an exception it raises is reported by Tk and dropped. *)
Definition callback (m : M unit) (w : world) : world := snd (m w).

Definition set_thread (tid : nat) (th : thread) : M unit :=
  modify_gui (fun g => set_threads (<[tid := th]> (threads g)) g).

Definition bg_step (tid : nat) (t : tick) (w : world) : world :=
  match threads (gui w) !! tid with
  | None => w
  | Some th =>
      match th_pc th with
      | Finished => w
      | AtWhile =>
          let next := if g_is_running (gui w) then Reading else Finished in
          snd (set_thread tid {| th_pc := next; th_count := th_count th |} w)
      | Reading =>
          match video_tick t (th_count th) w with
          | (Ok (Continue, n), w') =>
              snd (set_thread tid {| th_pc := AtWhile; th_count := n |} w')
          | (Ok (Break, n), w') =>
              snd (set_thread tid {| th_pc := Finished; th_count := n |} w')
          | (Raise _, w') =>
              snd (set_thread tid {| th_pc := Finished; th_count := th_count th |} w')
          end
      end
  end.

Definition gui_step (a : action) (w : world) : world :=
  match a with
  | Start cam_ok =>
      if start_button (gui w) then callback (start_camera cam_ok) w else w
  | Stop => if stop_button (gui w) then callback stop_camera w else w
  | ToggleVoice => callback toggle_voice w
  | Screenshot now => callback (take_screenshot now) w
  | Timer =>
      match timers (gui w) with
      | O => w
      | S n => callback (modify_gui (set_timers n);;; update_gui) w
      end
  | Bg tid t => bg_step tid t w
  end.

Definition gui_run (sched : list action) (w : world) : world :=
  fold_left (fun w a => gui_step a w) sched w.

(** * Properties *)

(** ** The classifier adapter *)

(** The dict the adapter works on: the answer itself, or the first of a
    list. *)
Definition model_answer (out : model_out) : option face :=
  match out with
  | Raises _ => None
  | Faces [] => None
  | Faces (f :: _) => Some f
  | Face f => Some f
  end.

(** The reading a model answer carries, when the answer has its keys. *)
Definition model_reading (out : model_out) : option (string * Q * scores) :=
  match model_answer out with
  | None => None
  | Some f =>
      match f_dominant f, f_emotion f with
      | Some d, Some m =>
          match assoc d m with
          | Some c => Some (d, c, m)
          | None => None
          end
      | _, _ => None
      end
  end.

Lemma assoc_In {A} (k : string) (v : A) (d : list (string * A)) :
  assoc k d = Some v -> In (k, v) d.
Proof.
  induction d as [|[k' v'] d IH]; simpl; [discriminate|].
  destruct (String.eqb_spec k k') as [->|Hne].
  - intros [= ->]. now left.
  - intros H. right. auto.
Qed.

Lemma detect_emotion_eq frame out w :
  exists tr,
    detect_emotion frame out w =
      (Ok (default unknown_reading (model_reading out)),
       {| sys := sys w; gui := gui w; fs := fs w; trace := trace w ++ tr |})
    /\ match tr with
       | [Analyze f] => f = frame /\ is_Some (model_reading out)
       | [Analyze f; Printed _] => f = frame /\ model_reading out = None
       | _ => False
       end.
Proof.
  unfold detect_emotion, try_except, DeepFace_analyze, model_reading,
    model_answer, bind, emit, print, emit, field, getitem, ret, raise.
  destruct out as [msg|[|f l]|f]; simpl;
    try destruct (f_dominant f) as [d|]; simpl;
    try destruct (f_emotion f) as [m|]; simpl;
    try destruct (assoc d m) as [c|]; simpl;
    rewrite <- ?app_assoc; simpl;
    eexists; (split; [reflexivity|simpl; eauto]).
Qed.

Lemma model_reading_assoc out d c m :
  model_reading out = Some (d, c, m) -> assoc d m = Some c.
Proof.
  unfold model_reading. destruct (model_answer out) as [f|]; [|discriminate].
  destruct (f_dominant f) as [d'|]; [|discriminate].
  destruct (f_emotion f) as [m'|]; [|discriminate].
  destruct (assoc d' m') as [c'|] eqn:Hc; [|discriminate].
  now intros [= <- <- <-].
Qed.

(** The claim as it is worded: the label returned on success has the
    greatest score of the mapping returned with it. *)
Definition returns_maximum_as_stated : Prop :=
  forall frame out w d c m,
    model_reading out = Some (d, c, m) ->
    forall label conf all,
      fst (detect_emotion frame out w) = Ok (label, conf, all) ->
      forall k v, In (k, v) all -> (v <= conf)%Q.

Definition sample_scores : scores :=
  [("angry", 0.5); ("happy", 82.3); ("sad", 1.2); ("neutral", 16)]%Q.

Definition sample_face : face :=
  {| f_dominant := Some "happy"; f_emotion := Some sample_scores |}.

Definition sample_day : datetime :=
  {| year := 2024; month := 3; day := 7;
     hour := 0; minute := 0; second := 0; microsecond := 0 |}.

(** A tick on which frame [n] is read, the model answers [out], the clock
    reads [time], the log can be written and no key is pressed. *)
Definition sample_tick (n : nat) (out : model_out) (time : Q) : tick :=
  {| t_read := Some (Captured n); t_model := out; t_time := time;
     t_now1 := sample_day; t_now2 := sample_day; t_write := Written;
     t_key := (-1)%Z |}.

(** An answer whose [dominant_emotion] is not the label of the greatest
    score. *)
Definition sample_odd_face : face :=
  {| f_dominant := Some "sad";
     f_emotion := Some [("happy", 90%Q); ("sad", 10%Q)] |}.

(** C1, as stated, fails: [detect_emotion] compares no scores, it copies
    [result['dominant_emotion']].  On the answer sad with the scores happy 90
    and sad 10 it returns sad with 10, which is not the greatest score. *)
Lemma detect_emotion_copies_dominant : ~ returns_maximum_as_stated.
Proof.
  intros H.
  specialize (H (Captured 0) (Face sample_odd_face) (init_world true ∅)
                "sad" 10%Q [("happy", 90%Q); ("sad", 10%Q)] eq_refl
                "sad" 10%Q [("happy", 90%Q); ("sad", 10%Q)] eq_refl
                "happy" 90%Q (or_introl eq_refl)).
  revert H. vm_compute. intros H. now apply H.
Qed.

(** C1, amended.  On every frame and every answer of the model,
    [detect_emotion] returns a triple and does not raise, and leaves the
    program state and the files alone.  When the answer (the dict, or the
    first dict of a list) has [dominant_emotion] and [emotion] and the label
    is a key of the mapping, the triple is that label as the model reports
    it, the score the mapping has for it, and the whole mapping.  In every
    other case (the model raises, the list is empty, a key is missing) the
    triple is ("unknown", 0.0, {}). *)
Theorem detect_emotion_returns_reported_label frame out w :
  exists r w',
    detect_emotion frame out w = (Ok r, w') /\
    sys w' = sys w /\ gui w' = gui w /\ fs w' = fs w /\
    (forall f d m c,
       model_answer out = Some f ->
       f_dominant f = Some d -> f_emotion f = Some m -> assoc d m = Some c ->
       r = (d, c, m) /\ In (d, c) m) /\
    (model_answer out = None \/
     (exists f, model_answer out = Some f /\
        (f_dominant f = None \/ f_emotion f = None \/
         exists d m, f_dominant f = Some d /\ f_emotion f = Some m /\
                     assoc d m = None)) ->
     r = ("unknown", 0%Q, [])).
Proof.
  destruct (detect_emotion_eq frame out w) as (tr & Heq & _).
  eexists _, _. split; [exact Heq|]. cbn [sys gui fs].
  repeat match goal with |- _ /\ _ => split end; try reflexivity.
  - intros f d m c Hf Hd Hm Hc. unfold model_reading.
    rewrite Hf, Hd, Hm, Hc. split; [reflexivity|]. now apply assoc_In.
  - unfold model_reading.
    intros [->|(f & -> & [->|[->|(d & m & -> & -> & ->)]])]; try reflexivity.
    now destruct (f_dominant f).
Qed.

Lemma detect_emotion_returns_reported_label_witness :
  fst (detect_emotion (Captured 0) (Faces [sample_face]) (init_world true ∅))
    = Ok ("happy", 82.3%Q, sample_scores) /\
  fst (detect_emotion (Captured 0) (Face sample_odd_face) (init_world true ∅))
    = Ok ("sad", 10%Q, [("happy", 90%Q); ("sad", 10%Q)]) /\
  fst (detect_emotion (Captured 0) (Raises "no face") (init_world true ∅))
    = Ok ("unknown", 0%Q, []).
Proof.
  repeat match goal with |- _ /\ _ => split end.
  - destruct (detect_emotion_returns_reported_label (Captured 0)
                (Faces [sample_face]) (init_world true ∅))
      as (r & w' & -> & _ & _ & _ & Hok & _).
    now destruct (Hok sample_face "happy" sample_scores 82.3%Q) as [-> _].
  - destruct (detect_emotion_returns_reported_label (Captured 0)
                (Face sample_odd_face) (init_world true ∅))
      as (r & w' & -> & _ & _ & _ & Hok & _).
    now destruct (Hok sample_odd_face "sad"
                    [("happy", 90%Q); ("sad", 10%Q)] 10%Q) as [-> _].
  - destruct (detect_emotion_returns_reported_label (Captured 0)
                (Raises "no face") (init_world true ∅))
      as (r & w' & -> & _ & _ & _ & _ & Hfail).
    now rewrite Hfail by now left.
Defined.

(** ** Reasoning about methods: what a computation preserves *)

Definition preserves {A} (I : world -> Prop) (m : M A) : Prop :=
  forall w, I w -> I (snd (m w)).

Section Preserves.
Context (I : world -> Prop).

Lemma preserves_ret {A} (a : A) : preserves I (ret a).
Proof. intros w H. exact H. Qed.

Lemma preserves_raise {A} e : preserves I (@raise A e).
Proof. intros w H. exact H. Qed.

Lemma preserves_bind {A B} (m : M A) (k : A -> M B) :
  preserves I m -> (forall a, preserves I (k a)) -> preserves I (bind m k).
Proof.
  intros Hm Hk w H. unfold bind. specialize (Hm w H).
  destruct (m w) as [[a|e] w']; simpl in *; [now apply Hk | exact Hm].
Qed.

Lemma preserves_try {A} (body : M A) (h : exn -> M A) :
  preserves I body -> (forall e, preserves I (h e)) ->
  preserves I (try_except body h).
Proof.
  intros Hm Hk w H. unfold try_except. specialize (Hm w H).
  destruct (body w) as [[a|e] w']; simpl in *; [exact Hm | now apply Hk].
Qed.

Lemma preserves_get_sys : preserves I get_sys.
Proof. intros w H. exact H. Qed.

Lemma preserves_get_gui : preserves I get_gui.
Proof. intros w H. exact H. Qed.

Lemma preserves_get_fs : preserves I get_fs.
Proof. intros w H. exact H. Qed.

End Preserves.

Create HintDb frame discriminated.
#[local] Hint Resolve preserves_ret preserves_raise preserves_get_sys
  preserves_get_gui preserves_get_fs : frame.

(** ** The voice notifier *)

(** The times at which a speech thread was started. *)
Fixpoint fired (tr : list event) : list Q :=
  match tr with
  | [] => []
  | SpeakThread _ _ t :: tr' => t :: fired tr'
  | _ :: tr' => fired tr'
  end.

(** Any two notifications are at least [c] apart. *)
Definition pairwise_gaps (c : Q) (l : list Q) : Prop :=
  forall i j ti tj,
    (i < j)%nat -> l !! i = Some ti -> l !! j = Some tj -> (c <= tj - ti)%Q.

Lemma fired_app tr1 tr2 : fired (tr1 ++ tr2) = fired tr1 ++ fired tr2.
Proof.
  induction tr1 as [|e tr1 IH]; simpl; [reflexivity|].
  destruct e; simpl; congruence.
Qed.

Lemma pairwise_gaps_snoc c l x :
  pairwise_gaps c l -> Forall (fun t => (c <= x - t)%Q) l ->
  pairwise_gaps c (l ++ [x]).
Proof.
  intros Hl Hx i j ti tj Hij Hi Hj.
  assert (j < length (l ++ [x]))%nat as Hjlen by (eapply lookup_lt_Some; eauto).
  rewrite length_app in Hjlen. simpl in Hjlen.
  rewrite lookup_app_l in Hi by lia.
  destruct (decide (j < length l)%nat) as [Hlt|Hge].
  - rewrite lookup_app_l in Hj by lia. exact (Hl i j ti tj Hij Hi Hj).
  - assert (j = length l) as -> by lia.
    rewrite list_lookup_middle in Hj by reflexivity. injection Hj as <-.
    rewrite Forall_forall in Hx. apply Hx.
    eapply list_elem_of_lookup_2; eauto.
Qed.

(** The bookkeeping behind the cooldown: the cooldown is the constant 3, the
    notifications so far are pairwise 3 apart and none is later than
    [last_voice_time], which is the time of the last one, or 0 when there
    was none. *)
Definition voice_inv (w : world) : Prop :=
  voice_cooldown (sys w) = 3%Q /\
  pairwise_gaps 3 (fired (trace w)) /\
  Forall (fun t => (t <= last_voice_time (sys w))%Q) (fired (trace w)) /\
  last_voice_time (sys w) = default 0%Q (last (fired (trace w))).

Definition quiet (e : event) : Prop :=
  match e with SpeakThread _ _ _ => False | _ => True end.

Lemma voice_inv_emit e : quiet e -> preserves voice_inv (emit e).
Proof.
  intros He w (Hc & Hg & Hl & Hlast). unfold voice_inv, emit. simpl.
  rewrite fired_app.
  replace (fired [e]) with (@nil Q) by
    (destruct e; simpl in *; first [reflexivity | contradiction]).
  rewrite app_nil_r. auto.
Qed.

Lemma voice_inv_modify_sys f :
  (forall s, voice_cooldown (f s) = voice_cooldown s /\
             last_voice_time (f s) = last_voice_time s) ->
  preserves voice_inv (modify_sys f).
Proof.
  intros Hf w (Hc & Hg & Hl & Hlast). unfold voice_inv, modify_sys. simpl.
  destruct (Hf (sys w)) as [-> ->]. auto.
Qed.

Lemma voice_inv_modify_gui f : preserves voice_inv (modify_gui f).
Proof. intros w H. exact H. Qed.

Lemma voice_inv_put_file p c : preserves voice_inv (put_file p c).
Proof.
  intros w (Hc & Hg & Hl & Hlast). unfold voice_inv, put_file. simpl.
  rewrite fired_app. simpl. rewrite app_nil_r. auto.
Qed.

Lemma Qltb_false a b : Qltb a b = false <-> (b <= a)%Q.
Proof.
  unfold Qltb. rewrite negb_false_iff. apply Qle_bool_iff.
Qed.

Lemma Qltb_true a b : Qltb a b = true <-> (a < b)%Q.
Proof.
  unfold Qltb. rewrite negb_true_iff. split.
  - intros H. apply Qnot_le_lt. intros Hle. apply Qle_bool_iff in Hle. congruence.
  - intros H. destruct (Qle_bool b a) eqn:E; [|reflexivity].
    apply Qle_bool_iff in E. exfalso. eapply Qlt_not_le; eauto.
Qed.

Lemma voice_inv_speak e c now : preserves voice_inv (speak_emotion e c now).
Proof.
  intros w (Hc & Hg & Hl & Hlast). unfold speak_emotion, bind, get_sys.
  destruct (negb (tts_engine (sys w)) || negb (voice_enabled (sys w)));
    [repeat split; assumption|].
  destruct (Qltb _ _) eqn:Hcool; [repeat split; assumption|].
  apply Qltb_false in Hcool. rewrite Hc in Hcool.
  unfold voice_inv, emit, modify_sys. simpl. rewrite fired_app. simpl.
  split; [exact Hc|]. split; [|split].
  - apply pairwise_gaps_snoc; [exact Hg|].
    eapply Forall_impl; [exact Hl|]. simpl. intros t Ht. lra.
  - apply Forall_app. split.
    + eapply Forall_impl; [exact Hl|]. simpl. intros t Ht. lra.
    + repeat constructor. apply Qle_refl.
  - now rewrite last_snoc.
Qed.

(** Splits a goal [preserves I m] along the structure of [m]; the leaves
    are left to the hints of [frame]. *)
Ltac frame_step :=
  lazymatch goal with
  | |- preserves _ (bind _ _) => apply preserves_bind; [|intros ?]
  | |- preserves _ (try_except _ _) => apply preserves_try; [|intros ?]
  | |- preserves _ (ret _) => apply preserves_ret
  | |- preserves _ (raise _) => apply preserves_raise
  | |- preserves _ get_sys => apply preserves_get_sys
  | |- preserves _ get_gui => apply preserves_get_gui
  | |- preserves _ get_fs => apply preserves_get_fs
  | |- preserves _ (match ?x with _ => _ end) => destruct x
  | |- preserves _ _ => solve [auto 2 with frame]
  end.
Ltac frame := repeat frame_step.

#[local] Hint Resolve voice_inv_modify_gui voice_inv_put_file voice_inv_speak
  : frame.
#[local] Hint Extern 1 (preserves voice_inv (emit _)) =>
  apply voice_inv_emit; exact I : frame.
#[local] Hint Extern 1 (preserves voice_inv (print _)) =>
  apply voice_inv_emit; exact I : frame.
#[local] Hint Extern 1 (preserves voice_inv (modify_sys _)) =>
  apply voice_inv_modify_sys; intros ?; split; reflexivity : frame.

Lemma voice_inv_initialize_camera ok :
  preserves voice_inv (initialize_camera ok).
Proof. unfold initialize_camera. frame. Qed.

Lemma voice_inv_detect_emotion frame out :
  preserves voice_inv (detect_emotion frame out).
Proof.
  unfold detect_emotion, DeepFace_analyze, field, getitem. frame.
Qed.

Lemma voice_inv_log_emotion e c a n1 n2 wr :
  preserves voice_inv (log_emotion e c a n1 n2 wr).
Proof. unfold log_emotion, json_load, py_append, json_dump. frame. Qed.

Lemma voice_inv_notify e c now : preserves voice_inv (notify e c now).
Proof. unfold notify. frame. Qed.

Lemma voice_inv_cleanup : preserves voice_inv cleanup.
Proof. unfold cleanup. frame. Qed.

#[local] Hint Resolve voice_inv_initialize_camera voice_inv_detect_emotion
  voice_inv_log_emotion voice_inv_notify voice_inv_cleanup : frame.

Lemma voice_inv_cap_read env : preserves voice_inv (cap_read env).
Proof. unfold cap_read. frame. Qed.
#[local] Hint Resolve voice_inv_cap_read : frame.

Lemma voice_inv_console_tick t l : preserves voice_inv (console_tick t l).
Proof. unfold console_tick, console_classify, local_var. frame. Qed.
#[local] Hint Resolve voice_inv_console_tick : frame.

Lemma voice_inv_console_loop ticks :
  forall l, preserves voice_inv (console_loop ticks l).
Proof.
  induction ticks as [|t ts IH]; intros l; simpl; frame.
Qed.
#[local] Hint Resolve voice_inv_console_loop : frame.

Lemma voice_inv_run_console_mode ok ticks :
  preserves voice_inv (run_console_mode ok ticks).
Proof. unfold run_console_mode. frame. Qed.

Lemma voice_inv_update_gui : preserves voice_inv update_gui.
Proof. unfold update_gui. frame. Qed.
#[local] Hint Resolve voice_inv_update_gui : frame.

Lemma voice_inv_start_camera ok : preserves voice_inv (start_camera ok).
Proof. unfold start_camera. frame. Qed.

Lemma voice_inv_stop_camera : preserves voice_inv stop_camera.
Proof. unfold stop_camera. frame. Qed.

Lemma voice_inv_toggle_voice : preserves voice_inv toggle_voice.
Proof. unfold toggle_voice. frame. Qed.

Lemma voice_inv_take_screenshot now : preserves voice_inv (take_screenshot now).
Proof. unfold take_screenshot. frame. Qed.

Lemma voice_inv_video_tick t n : preserves voice_inv (video_tick t n).
Proof. unfold video_tick, video_classify. frame. Qed.

#[local] Hint Resolve voice_inv_video_tick : frame.

Lemma voice_inv_process_video ticks :
  forall n, preserves voice_inv (process_video ticks n).
Proof.
  induction ticks as [|t ts IH]; intros n; simpl; frame.
Qed.

Lemma voice_inv_gui_step a w : voice_inv w -> voice_inv (gui_step a w).
Proof.
  intros H. destruct a; simpl; unfold callback.
  - destruct (start_button _); [now apply voice_inv_start_camera | exact H].
  - destruct (stop_button _); [now apply voice_inv_stop_camera | exact H].
  - now apply voice_inv_toggle_voice.
  - now apply voice_inv_take_screenshot.
  - destruct (timers _); [exact H|].
    revert w H. change (preserves voice_inv (modify_gui (set_timers n);;; update_gui)).
    frame.
  - unfold bg_step. destruct (_ !! _) as [th|]; [|exact H].
    destruct (th_pc th); [exact H| |exact H].
    pose proof (voice_inv_video_tick t (th_count th) w H) as H'.
    destruct (video_tick _ _ _) as [[[[|] n]|e] w']; exact H'.
Qed.

Lemma voice_inv_gui_run sched : forall w, voice_inv w -> voice_inv (gui_run sched w).
Proof.
  unfold gui_run. induction sched as [|a sched IH]; intros w H; simpl; [exact H|].
  apply IH. now apply voice_inv_gui_step.
Qed.

Lemma voice_inv_init tts files : voice_inv (init_world tts files).
Proof.
  unfold voice_inv, init_world. simpl. split; [reflexivity|].
  destruct tts; simpl; (split; [|split; [constructor|reflexivity]]);
    intros i j ti tj _ Hi; rewrite lookup_nil in Hi; discriminate.
Qed.

(** The decision [notify] takes, as a boolean. *)
Definition voice_due (c now : Q) (s : system) : bool :=
  tts_engine s && voice_enabled s && Qltb 70 c &&
  negb (Qltb (now - last_voice_time s) (voice_cooldown s)).

Lemma notify_eq e c now w :
  notify e c now w =
    (Ok tt,
     if voice_due c now (sys w)
     then {| sys := set_last_voice_time now (sys w); gui := gui w; fs := fs w;
             trace := trace w ++ [SpeakThread e c now] |}
     else w).
Proof.
  unfold notify, speak_emotion, voice_due, bind, get_sys, emit, modify_sys, ret.
  destruct w as [s g f tr]. simpl.
  destruct (Qltb 70 c) eqn:E1; destruct (tts_engine s) eqn:E2;
    destruct (voice_enabled s) eqn:E3; simpl; rewrite ?E2, ?E3; simpl;
    try reflexivity.
  destruct (Qltb (now - _) _); reflexivity.
Qed.

Lemma voice_due_iff c now s :
  voice_due c now s = true <->
  tts_engine s = true /\ voice_enabled s = true /\ (70 < c)%Q /\
  (voice_cooldown s <= now - last_voice_time s)%Q.
Proof.
  unfold voice_due. rewrite !andb_true_iff, negb_true_iff, Qltb_true, Qltb_false.
  tauto.
Qed.

(** A reading makes the notifier fire: the speech thread is started. *)
Definition fires_on (e : string) (c now : Q) (w : world) : Prop :=
  trace (snd (notify e c now w)) = trace w ++ [SpeakThread e c now].

Lemma snoc_neq {A} (l : list A) x : l ++ [x] <> l.
Proof.
  intros H. apply (f_equal length) in H. rewrite length_app in H.
  simpl in H. lia.
Qed.

Lemma fires_on_due e c now w : fires_on e c now w <-> voice_due c now (sys w) = true.
Proof.
  unfold fires_on. rewrite notify_eq. simpl.
  destruct (voice_due c now (sys w)); simpl; split; auto.
  - intros H. symmetry in H. now apply snoc_neq in H.
  - discriminate.
Qed.

(** The rule of the claim as it is worded: enabled, confident, cooled down. *)
Definition voice_rule_as_stated : Prop :=
  forall e c now w,
    fires_on e c now w <->
    voice_enabled (sys w) = true /\ (70 < c)%Q /\
    (3 <= now - last_voice_time (sys w))%Q.

(** C2, as stated, fails: with the speech engine missing ([pyttsx3.init()]
    failed, so [tts_engine] is None) voice is enabled, the confidence is 90
    and the cooldown has long passed, and nothing fires. *)
Lemma voice_rule_as_stated_fails : ~ voice_rule_as_stated.
Proof.
  intros H.
  destruct (H "happy" 90%Q 100%Q (init_world false ∅)) as [_ Hfire].
  assert (fires_on "happy" 90 100 (init_world false ∅)) as Hf.
  { apply Hfire. simpl. repeat split; reflexivity || discriminate. }
  apply fires_on_due in Hf. discriminate Hf.
Qed.

(** The schedules of the GUI in which [k] is the one video thread that
    moves. *)
Definition one_video_thread (k : nat) (sched : list action) : Prop :=
  Forall (fun a => match a with Bg tid _ => tid = k | _ => True end) sched.

(** C2, amended.  On a classified reading the notifier fires exactly when
    the speech engine exists, voice is enabled, the confidence is strictly
    above 70 and at least the cooldown has passed since [last_voice_time];
    firing records the time, not firing changes nothing; with confidence at
    most 70 or voice disabled it does not fire.  Over the readings that one
    run of the video loop processes in a started session, and over every
    schedule of the GUI in which one video thread moves, [last_voice_time]
    is the time of the last notification (0 before the first), and the
    notifications are pairwise at least 3 seconds apart. *)
Theorem voice_notifier_rule :
  (forall e c now w,
     fires_on e c now w <->
     tts_engine (sys w) = true /\ voice_enabled (sys w) = true /\ (70 < c)%Q /\
     (voice_cooldown (sys w) <= now - last_voice_time (sys w))%Q) /\
  (forall e c now w,
     fires_on e c now w ->
     last_voice_time (sys (snd (notify e c now w))) = now) /\
  (forall e c now w,
     ~ fires_on e c now w -> snd (notify e c now w) = w) /\
  (forall e c now w,
     (c <= 70)%Q \/ voice_enabled (sys w) = false -> ~ fires_on e c now w) /\
  (forall tts files ticks,
     let w' := snd (process_video ticks 0
                      (snd (start_camera true (init_world tts files)))) in
     voice_cooldown (sys w') = 3%Q /\
     last_voice_time (sys w') = default 0%Q (last (fired (trace w'))) /\
     pairwise_gaps 3 (fired (trace w'))) /\
  (forall tts files k sched,
     one_video_thread k sched ->
     let w' := gui_run sched (init_world tts files) in
     voice_cooldown (sys w') = 3%Q /\
     last_voice_time (sys w') = default 0%Q (last (fired (trace w'))) /\
     pairwise_gaps 3 (fired (trace w'))).
Proof.
  repeat match goal with |- _ /\ _ => split end.
  - intros e c now w. rewrite fires_on_due, voice_due_iff. tauto.
  - intros e c now w H. apply fires_on_due in H. rewrite notify_eq, H.
    reflexivity.
  - intros e c now w H. rewrite notify_eq.
    destruct (voice_due c now (sys w)) eqn:E; [|reflexivity].
    exfalso. apply H. now apply fires_on_due.
  - intros e c now w H Hf. apply fires_on_due, voice_due_iff in Hf.
    destruct Hf as (_ & Hen & Hc & _). destruct H as [H|H].
    + eapply Qlt_not_le; eauto.
    + congruence.
  - intros tts files ticks w'.
    destruct (voice_inv_process_video ticks 0 _
                (voice_inv_start_camera true _ (voice_inv_init tts files)))
      as (Hc & Hg & _ & Hlast).
    auto.
  - intros tts files k sched _ w'.
    destruct (voice_inv_gui_run sched _ (voice_inv_init tts files))
      as (Hc & Hg & _ & Hlast).
    auto.
Qed.

(** Nine frames of a session; the third, sixth and ninth are classified as
    happy, 82.3, at the times 100, 101 and 104. *)
Definition sample_readings : list tick :=
  [sample_tick 1 (Raises "") 98; sample_tick 2 (Raises "") 99;
   sample_tick 3 (Faces [sample_face]) 100;
   sample_tick 4 (Raises "") 100.3; sample_tick 5 (Raises "") 100.6;
   sample_tick 6 (Faces [sample_face]) 101;
   sample_tick 7 (Raises "") 102; sample_tick 8 (Raises "") 103;
   sample_tick 9 (Faces [sample_face]) 104].

Lemma voice_notifier_rule_witness :
  fires_on "happy" 82.3 100 (init_world true ∅) /\
  last_voice_time (sys (snd (notify "happy" 82.3 100 (init_world true ∅)))) = 100%Q /\
  ~ fires_on "sad" 40 200 (init_world true ∅) /\
  snd (notify "sad" 40 200 (init_world true ∅)) = init_world true ∅ /\
  fired (trace (snd (process_video sample_readings 0
                       (snd (start_camera true (init_world true ∅))))))
    = [100%Q; 104%Q] /\
  fired (trace (gui_run
                  (Start true ::
                   flat_map (fun t => [Bg 0 t; Bg 0 t]) sample_readings)
                  (init_world true ∅)))
    = [100%Q; 104%Q] /\
  pairwise_gaps 3 [100%Q; 104%Q].
Proof.
  destruct voice_notifier_rule as (Hiff & Hlast & Hsame & Hnever & Hloop & Hgui).
  assert (fires_on "happy" 82.3 100 (init_world true ∅)) as Hf.
  { apply Hiff. simpl. repeat split; try reflexivity.
    vm_compute. discriminate. }
  assert (~ fires_on "sad" 40 200 (init_world true ∅)) as Hn.
  { apply Hnever. left. vm_compute. discriminate. }
  assert (fired (trace (snd (process_video sample_readings 0
                               (snd (start_camera true (init_world true ∅))))))
          = [100%Q; 104%Q]) as Eloop by (vm_compute; reflexivity).
  assert (fired (trace (gui_run
                          (Start true ::
                           flat_map (fun t => [Bg 0 t; Bg 0 t]) sample_readings)
                          (init_world true ∅)))
          = [100%Q; 104%Q]) as Egui by (vm_compute; reflexivity).
  split; [exact Hf|]. split; [exact (Hlast _ _ _ _ Hf)|].
  split; [exact Hn|]. split; [exact (Hsame _ _ _ _ Hn)|].
  split; [exact Eloop|]. split; [exact Egui|].
  rewrite <- Egui.
  refine (proj2 (proj2 (Hgui true ∅ 0%nat _ _))).
  unfold one_video_thread, sample_readings. simpl. repeat constructor.
Defined.

(** ** The session logger *)

(** The world with more events on its trace. *)
Definition with_events (w : world) (tr : list event) : world :=
  {| sys := sys w; gui := gui w; fs := fs w; trace := trace w ++ tr |}.

(** What [log_emotion] takes up from a log file: no records when the file
    is absent, the loaded records when it holds an array. *)
Definition loaded (o : option file) : option (list json) :=
  match o with
  | None => Some []
  | Some (JsonDoc _ doc) =>
      match json_value doc with
      | JArr l => Some l
      | _ => None
      end
  | Some (Garbage _) => None
  end.

(** The array [log_emotion] goes to write back: none when the file is not
    a JSON array. *)
Definition appended (old : option file) (entry : json) : option json :=
  match loaded old with
  | Some l => Some (JArr (l ++ [entry]))
  | None => None
  end.

(** The world after the write-back of [doc] has ended as [wr]; [msg] is the
    error line printed when it failed. *)
Definition written_back (path : string) (doc : json) (wr : write_outcome)
  (msg : string) (w : world) : world :=
  match wr with
  | Written =>
      {| sys := sys w; gui := gui w;
         fs := <[path := JsonDoc (Some 2) doc]> (fs w);
         trace := trace w ++ [WriteFile path (JsonDoc (Some 2) doc)] |}
  | OpenFails _ => with_events w [Printed msg]
  | DumpFails partial _ =>
      {| sys := sys w; gui := gui w;
         fs := <[path := Garbage partial]> (fs w);
         trace := trace w ++ [WriteFile path (Garbage partial); Printed msg] |}
  end.

Lemma log_emotion_eq e c a n1 n2 wr w :
  exists msg,
    log_emotion e c a n1 n2 wr w =
      (Ok tt,
       match appended (fs w !! log_path (strftime_Ymd n2))
                      (log_entry (isoformat n1) e c a) with
       | Some doc => written_back (log_path (strftime_Ymd n2)) doc wr msg w
       | None => with_events w [Printed msg]
       end).
Proof.
  cbv beta zeta delta [log_emotion try_except bind get_fs json_load py_append
    json_dump put_file print emit ret raise appended loaded written_back
    with_events].
  generalize (log_path (strftime_Ymd n2)) as path.
  generalize (log_entry (isoformat n1) e c a) as entry.
  intros entry path. destruct w as [s g files tr]. cbn [sys gui fs trace].
  destruct (files !! path) as [[ind doc|bytes]|] eqn:Hf.
  - destruct (decide (is_Some (Some (JsonDoc ind doc)))) as [_|Hn];
      [|exfalso; apply Hn; eauto].
    cbn [sys gui fs trace]. rewrite Hf.
    destruct (json_value doc); cbn [sys gui fs trace];
      try (eexists; reflexivity).
    destruct wr; cbn [sys gui fs trace];
      [now exists "" | eexists; reflexivity |].
    rewrite <- app_assoc. eexists; reflexivity.
  - destruct (decide (is_Some (Some (Garbage bytes)))) as [_|Hn];
      [|exfalso; apply Hn; eauto].
    cbn [sys gui fs trace]. rewrite Hf. eexists; reflexivity.
  - destruct (decide (is_Some (@None file))) as [[x Hx]|_]; [discriminate|].
    destruct wr; cbn [sys gui fs trace];
      [now exists "" | eexists; reflexivity |].
    rewrite <- app_assoc. eexists; reflexivity.
Qed.

(** One call of [log_emotion]: its arguments, its two clock readings and
    how its write-back ends. *)
Record append := {
  a_emotion : string;
  a_confidence : Q;
  a_all : scores;
  a_now1 : datetime;
  a_now2 : datetime;
  a_write : write_outcome
}.


(** Successive calls of [log_emotion]. *)
Fixpoint log_all (reqs : list append) : M unit :=
  match reqs with
  | [] => ret tt
  | a :: rest =>
      log_emotion (a_emotion a) (a_confidence a) (a_all a)
        (a_now1 a) (a_now2 a) (a_write a);;;
      log_all rest
  end.

Definition same_day (d d' : datetime) : Prop :=
  year d = year d' /\ month d = month d' /\ day d = day d'.

(** The records a log file holds, when it is absent or a JSON array. *)
Definition stored (o : option file) : option (list json) :=
  match o with
  | None => Some []
  | Some (JsonDoc _ (JArr l)) => Some l
  | Some _ => None
  end.


(** *** Reading a time stamp back *)

(** Reading a zero-padded decimal number back. *)
Definition undec (s : string) : option nat :=
  option_map Nat.of_uint (NilEmpty.uint_of_string s).






Lemma undec_zeros k s : undec (zeros k +:+ s) = undec s.
Proof.
  unfold undec. induction k as [|k IH]; [reflexivity|].
  change (zeros (S k) +:+ s) with (String "0" (zeros k +:+ s)).
  cbn [NilEmpty.uint_of_string]. rewrite <- IH.
  destruct (NilEmpty.uint_of_string (zeros k +:+ s)) as [d|]; reflexivity.
Qed.

Lemma undec_pad w n : undec (pad w n) = Some n.
Proof.
  unfold pad. rewrite undec_zeros. unfold undec, dec.
  rewrite NilEmpty.usu. simpl. now rewrite Unsigned.of_to.
Qed.










(** *** Loading what was written *)






Lemma same_day_path d d' :
  same_day d d' -> log_path (strftime_Ymd d) = log_path (strftime_Ymd d').
Proof.
  intros (Hy & Hm & Hd). unfold strftime_Ymd. now rewrite Hy, Hm, Hd.
Qed.






Definition sample_appends : list append :=
  [ {| a_emotion := "happy"; a_confidence := 82.3; a_all := sample_scores;
       a_now1 := {| year := 2024; month := 3; day := 7;
                    hour := 9; minute := 5; second := 1; microsecond := 42 |};
       a_now2 := {| year := 2024; month := 3; day := 7;
                    hour := 9; minute := 5; second := 1; microsecond := 57 |};
       a_write := Written |};
    {| a_emotion := "sad"; a_confidence := 40; a_all := [("sad", 40%Q)];
       a_now1 := {| year := 2024; month := 3; day := 7;
                    hour := 9; minute := 5; second := 2; microsecond := 0 |};
       a_now2 := {| year := 2024; month := 3; day := 7;
                    hour := 9; minute := 5; second := 2; microsecond := 3 |};
       a_write := Written |} ].


(** ** The console loop *)

(** The console loop dies on its first frame: [all_emotions] is assigned
    only under [if frame_count % 3 == 0], and the first pass, with
    [frame_count] 1, reads it for [draw_emotion_info]. *)
Lemma console_loop_first_frame t ticks frame w :
  is_running (sys w) = true ->
  cap (sys w) = Some {| opened := true |} ->
  t_read t = Some frame ->
  console_loop (t :: ticks) {| frame_count := 0; all_emotions := None |} w =
    (Raise (UnboundLocalError "all_emotions"),
     {| sys := sys w; gui := gui w; fs := fs w;
        trace := trace w ++ [CamRead true] |}).
Proof.
  intros Hrun Hcap Hread.
  simpl. unfold bind at 1. unfold get_sys. rewrite Hrun. simpl.
  unfold console_tick, cap_read, bind, get_sys, emit, ret. rewrite Hcap, Hread.
  reflexivity.
Qed.

(** C4.  In console mode, with the camera open and a first frame read, the
    run ends on tick 1 with UnboundLocalError for [all_emotions]: the
    classifier is never called (no tick 3 is reached), nothing is drawn or
    shown, and [cleanup] does not run, so the camera stays open. *)
Theorem console_mode_dies_on_first_frame
  (tts : bool) (files : gmap string file) (frame : image) (out : model_out)
  (time : Q) (now1 now2 : datetime) (wr : write_outcome) (key : Z)
  (ticks : list tick) :
  run_console_mode true
    ({| t_read := Some frame; t_model := out; t_time := time;
        t_now1 := now1; t_now2 := now2; t_write := wr; t_key := key |}
     :: ticks)
    (init_world tts files) =
  (Raise (UnboundLocalError "all_emotions"),
   {| sys := set_is_running true
               (set_cap (Some {| opened := true |}) (init_system tts));
      gui := init_gui; fs := files;
      trace := trace (init_world tts files) ++
        [CamOpen true;
         CamSet "CAP_PROP_FRAME_WIDTH" 640; CamSet "CAP_PROP_FRAME_HEIGHT" 480;
         Printed "🎭 Real-Time Emotion Recognition System Started!";
         Printed "Press 'q' to quit, 'v' to toggle voice, 's' to save screenshot";
         Printed "--------------------------------------------------";
         CamRead true] |}).
Proof.
  unfold run_console_mode, initialize_camera, try_except.
  cbn [negb]. unfold bind at 1. unfold bind at 1.
  cbv beta iota zeta delta [bind modify_sys emit print ret init_world sys gui
    fs trace negb fst snd].
  rewrite console_loop_first_frame with (frame := frame); try reflexivity.
  cbn [sys gui fs trace]. rewrite <- !app_assoc. reflexivity.
Qed.

(** ** Classification ticks *)

Lemma detect_emotion_fail frame out w :
  model_reading out = None ->
  exists msg,
    detect_emotion frame out w =
      (Ok unknown_reading, with_events w [Analyze frame; Printed msg]).
Proof.
  intros Hnone. destruct (detect_emotion_eq frame out w) as (tr & Heq & Htr).
  rewrite Hnone in Heq, Htr. simpl in Heq.
  destruct tr as [|[] [|[] [|]]]; try contradiction.
  - destruct Htr as [_ [x Hx]]. discriminate.
  - destruct Htr as [-> _]. eexists. exact Heq.
Qed.

Lemma detect_emotion_ok frame out w r :
  model_reading out = Some r ->
  detect_emotion frame out w = (Ok r, with_events w [Analyze frame]).
Proof.
  intros Hsome. destruct (detect_emotion_eq frame out w) as (tr & Heq & Htr).
  rewrite Hsome in Heq, Htr. simpl in Heq.
  destruct tr as [|[] [|[] [|]]]; try contradiction.
  - destruct Htr as [-> _]. exact Heq.
  - destruct Htr as [_ Hn]. discriminate.
Qed.

Lemma video_classify_fail t frame w :
  model_reading (t_model t) = None ->
  exists msg,
    video_classify t frame w =
      (Ok tt, with_events w [Analyze frame; Printed msg]).
Proof.
  intros Hnone. unfold video_classify, bind.
  destruct (detect_emotion_fail frame _ w Hnone) as [msg ->].
  exists msg. reflexivity.
Qed.

Lemma console_classify_fail t frame w :
  model_reading (t_model t) = None ->
  exists msg,
    console_classify t frame w =
      (Ok [], with_events w [Analyze frame; Printed msg]).
Proof.
  intros Hnone. unfold console_classify, bind.
  destruct (detect_emotion_fail frame _ w Hnone) as [msg ->].
  exists msg. reflexivity.
Qed.

Lemma cap_read_open env w :
  cap (sys w) = Some {| opened := true |} ->
  cap_read env w = (Ok env, with_events w [CamRead true]).
Proof.
  intros Hcap. unfold cap_read, bind, get_sys, emit, ret. now rewrite Hcap.
Qed.

(** The item [process_video] puts on the queue for a frame, and the world
    after the put. *)
Definition published (frame : image) (w : world) : world :=
  {| sys := sys w;
     gui := set_frame_queue
              (frame_queue (gui w) ++
               [(PhotoImage frame, current_emotion (sys w),
                 current_confidence (sys w))])
              (gui w);
     fs := fs w; trace := trace w |}.

Definition frame_taken (frame : image) (w : world) : world :=
  {| sys := sys w; gui := set_current_frame (Some frame) (gui w);
     fs := fs w; trace := trace w ++ [CamRead true] |}.

(** A pass of [process_video] that reads a frame, split at the
    classification. *)
Lemma video_tick_frame t n frame w :
  cap (sys w) = Some {| opened := true |} ->
  t_read t = Some frame ->
  video_tick t n w =
    if Nat.eqb (S n mod 3) 0
    then match video_classify t (Flip frame) (frame_taken (Flip frame) w) with
         | (Ok _, w') => (Ok (Continue, S n), published (Flip frame) w')
         | (Raise e, w') => (Raise e, w')
         end
    else (Ok (Continue, S n), published (Flip frame) (frame_taken (Flip frame) w)).
Proof.
  intros Hcap Hread. unfold video_tick. unfold bind at 1.
  rewrite (cap_read_open _ _ Hcap), Hread.
  unfold bind at 1. unfold modify_gui at 1. cbn [with_events sys gui fs trace].
  fold (frame_taken (Flip frame) w).
  unfold bind at 1.
  destruct (Nat.eqb (S n mod 3) 0).
  - destruct (video_classify _ _ _) as [[[]|e] w']; reflexivity.
  - reflexivity.
Qed.

(** A pass of [process_video] that gets no frame leaves the loop and does
    nothing else: no [cleanup], no release, the flag stays. *)
Lemma video_tick_no_frame t n w c :
  cap (sys w) = Some c ->
  (opened c = false \/ t_read t = None) ->
  video_tick t n w = (Ok (Break, n), with_events w [CamRead (opened c)]).
Proof.
  intros Hcap Hno. unfold video_tick, cap_read, bind, get_sys, emit, ret.
  rewrite Hcap. destruct Hno as [->| ->]; [reflexivity|].
  destruct (opened c); reflexivity.
Qed.

Lemma video_tick_fail t n frame w :
  cap (sys w) = Some {| opened := true |} ->
  t_read t = Some frame ->
  S n mod 3 = 0%nat ->
  model_reading (t_model t) = None ->
  exists msg,
    video_tick t n w =
      (Ok (Continue, S n),
       published (Flip frame)
         (with_events (frame_taken (Flip frame) w)
            [Analyze (Flip frame); Printed msg])).
Proof.
  intros Hcap Hread Hmod Hnone.
  rewrite (video_tick_frame _ _ _ _ Hcap Hread), Hmod. simpl.
  destruct (video_classify_fail t (Flip frame) (frame_taken (Flip frame) w) Hnone)
    as [msg ->].
  exists msg. reflexivity.
Qed.

Lemma console_tick_fail t l frame w :
  cap (sys w) = Some {| opened := true |} ->
  t_read t = Some frame ->
  S (frame_count l) mod 3 = 0%nat ->
  model_reading (t_model t) = None ->
  exists c w',
    console_tick t l w =
      (Ok (c, {| frame_count := S (frame_count l); all_emotions := Some [] |}), w')
    /\ current_emotion (sys w') = current_emotion (sys w)
    /\ current_confidence (sys w') = current_confidence (sys w)
    /\ last_voice_time (sys w') = last_voice_time (sys w)
    /\ fs w' = fs w
    /\ fired (trace w') = fired (trace w)
    /\ (c = Break <-> Z.land (t_key t) 255 = 113%Z).
Proof.
  intros Hcap Hread Hmod Hnone.
  unfold console_tick. unfold bind at 1.
  rewrite (cap_read_open _ _ Hcap), Hread, Hmod. cbn [Nat.eqb].
  unfold bind at 1. unfold bind at 1.
  destruct (console_classify_fail t (Flip frame) (with_events w [CamRead true]) Hnone)
    as [msg ->].
  cbv beta iota zeta delta [ret local_var bind get_sys emit modify_sys print
    with_events draw_emotion_info sys gui fs trace].
  destruct (Z.eqb_spec (Z.land (t_key t) 255) 113) as [Hq|Hq].
  { eexists _, _. split; [reflexivity|]. cbn [sys fs trace].
    rewrite !fired_app. simpl. rewrite !app_nil_r. tauto. }
  destruct (Z.eqb (Z.land (t_key t) 255) 118).
  { eexists _, _. split; [reflexivity|]. cbn [sys fs trace].
    rewrite !fired_app. simpl. rewrite !app_nil_r.
    repeat split; try reflexivity; try discriminate. intros H; contradiction. }
  destruct (Z.eqb (Z.land (t_key t) 255) 115).
  { eexists _, _. split; [reflexivity|]. cbn [sys fs trace].
    rewrite !fired_app. simpl. rewrite !app_nil_r.
    repeat split; try reflexivity; try discriminate. intros H; contradiction. }
  eexists _, _. split; [reflexivity|]. cbn [sys fs trace].
  rewrite !fired_app. simpl. rewrite !app_nil_r.
  repeat split; try reflexivity; try discriminate. intros H; contradiction.
Qed.

(** The claim as it is worded, for the loop of [process_video]: a failed
    classification makes the current reading the sentinel. *)
Definition failure_resets_reading_as_stated : Prop :=
  forall t n frame w,
    cap (sys w) = Some {| opened := true |} ->
    t_read t = Some frame ->
    S n mod 3 = 0%nat ->
    model_reading (t_model t) = None ->
    current_emotion (sys (snd (video_tick t n w))) = "unknown" /\
    (current_confidence (sys (snd (video_tick t n w))) == 0)%Q.

(** The GUI session after ticks 1 to 5, the third classified as happy,
    82.3. *)
Definition after_happy : world :=
  snd (process_video
         [sample_tick 1 (Raises "") 98; sample_tick 2 (Raises "") 99;
          sample_tick 3 (Faces [sample_face]) 100;
          sample_tick 4 (Raises "") 101; sample_tick 5 (Raises "") 102] 0
         (snd (start_camera true (init_world true ∅)))).

(** C5, as stated, fails: after a reading happy, 82.3 on tick 3, a
    classifier failure on tick 6 leaves the current reading happy, 82.3. *)
Lemma failure_resets_reading_as_stated_fails : ~ failure_resets_reading_as_stated.
Proof.
  intros H.
  destruct (H (sample_tick 6 (Raises "no face") 103) 5%nat (Captured 6) after_happy)
    as [Hlabel _]; try reflexivity.
  vm_compute in Hlabel. discriminate Hlabel.
Qed.

(** C5, amended.  On a classification tick where the classifier fails, both
    loops keep the current label and confidence as they were, write no log
    record, start no speech thread and go on to the next tick (the console
    loop unless the quit key is pressed on that tick); [process_video]
    publishes the old reading with the frame, the console loop from then on
    draws with an empty score mapping. *)
Theorem failed_classification_keeps_reading t n l frame w :
  cap (sys w) = Some {| opened := true |} ->
  t_read t = Some frame ->
  model_reading (t_model t) = None ->
  (S n mod 3 = 0%nat ->
   exists msg w',
     video_tick t n w = (Ok (Continue, S n), w') /\
     sys w' = sys w /\ fs w' = fs w /\
     trace w' = trace w ++ [CamRead true; Analyze (Flip frame); Printed msg] /\
     frame_queue (gui w') =
       frame_queue (gui w) ++
       [(PhotoImage (Flip frame), current_emotion (sys w),
         current_confidence (sys w))]) /\
  (S (frame_count l) mod 3 = 0%nat ->
   exists c w',
     console_tick t l w =
       (Ok (c, {| frame_count := S (frame_count l); all_emotions := Some [] |}), w') /\
     current_emotion (sys w') = current_emotion (sys w) /\
     current_confidence (sys w') = current_confidence (sys w) /\
     last_voice_time (sys w') = last_voice_time (sys w) /\
     fs w' = fs w /\
     fired (trace w') = fired (trace w) /\
     (c = Break <-> Z.land (t_key t) 255 = 113%Z)).
Proof.
  intros Hcap Hread Hnone. split; intros Hmod.
  - destruct (video_tick_fail t n frame w Hcap Hread Hmod Hnone) as [msg Heq].
    eexists msg, _. split; [exact Heq|].
    cbn [published with_events frame_taken sys gui fs trace set_frame_queue
         set_current_frame frame_queue].
    rewrite <- app_assoc. repeat split; reflexivity.
  - apply (console_tick_fail t l frame w); assumption.
Qed.

Lemma failed_classification_keeps_reading_witness :
  current_emotion (sys after_happy) = "happy" /\
  (exists msg w',
     video_tick (sample_tick 6 (Raises "no face") 103) 5 after_happy
       = (Ok (Continue, 6%nat), w') /\
     sys w' = sys after_happy /\ fs w' = fs after_happy /\
     trace w' = trace after_happy ++
       [CamRead true; Analyze (Flip (Captured 6)); Printed msg] /\
     frame_queue (gui w') =
       frame_queue (gui after_happy) ++
       [(PhotoImage (Flip (Captured 6)), current_emotion (sys after_happy),
         current_confidence (sys after_happy))]) /\
  (exists c w',
     console_tick (sample_tick 6 (Raises "no face") 103)
       {| frame_count := 5; all_emotions := Some sample_scores |} after_happy
       = (Ok (c, {| frame_count := 6; all_emotions := Some [] |}), w') /\
     current_emotion (sys w') = current_emotion (sys after_happy) /\
     current_confidence (sys w') = current_confidence (sys after_happy) /\
     last_voice_time (sys w') = last_voice_time (sys after_happy) /\
     fs w' = fs after_happy /\
     fired (trace w') = fired (trace after_happy) /\
     (c = Break <-> Z.land (-1) 255 = 113%Z)).
Proof.
  destruct (failed_classification_keeps_reading
              (sample_tick 6 (Raises "no face") 103) 5
              {| frame_count := 5; all_emotions := Some sample_scores |}
              (Captured 6) after_happy eq_refl eq_refl eq_refl) as [Hv Hc].
  split; [reflexivity|].
  split; [exact (Hv eq_refl) | exact (Hc eq_refl)].
Defined.

(** ** Leaving the loop *)

(** In console mode a failed read leaves the loop and [cleanup] runs: the
    flag is cleared, the camera released, the windows destroyed. *)
Lemma console_frame_failure_cleans_up t ticks w :
  t_read t = None ->
  run_console_mode true (t :: ticks) w =
    (Ok Stopped,
     {| sys := set_cap (Some {| opened := false |})
                 (set_is_running false
                    (set_is_running true
                       (set_cap (Some {| opened := true |}) (sys w))));
        gui := gui w; fs := fs w;
        trace := trace w ++
          [CamOpen true;
           CamSet "CAP_PROP_FRAME_WIDTH" 640; CamSet "CAP_PROP_FRAME_HEIGHT" 480;
           Printed "🎭 Real-Time Emotion Recognition System Started!";
           Printed "Press 'q' to quit, 'v' to toggle voice, 's' to save screenshot";
           Printed "--------------------------------------------------";
           CamRead true;
           Printed "Error: Could not read frame";
           CamRelease; DestroyAllWindows;
           Printed "System stopped successfully!"] |}).
Proof.
  intros Hread.
  cbv beta iota zeta delta [run_console_mode initialize_camera try_except
    console_loop console_tick cap_read cleanup bind modify_sys emit print ret
    get_sys negb fst snd sys gui fs trace set_cap set_is_running cap
    is_running opened].
  rewrite Hread.
  cbv beta iota zeta delta [bind modify_sys emit print ret get_sys fst snd
    sys gui fs trace set_cap set_is_running cap is_running].
  rewrite <- !app_assoc. reflexivity.
Qed.

(** [process_video] on a failed read: the loop is left, and that is all. *)
Lemma process_video_frame_failure t ticks n w c :
  g_is_running (gui w) = true ->
  cap (sys w) = Some c ->
  t_read t = None ->
  process_video (t :: ticks) n w =
    (Ok Exited, with_events w [CamRead (opened c)]).
Proof.
  intros Hrun Hcap Hread. simpl. unfold bind at 1. unfold get_gui.
  rewrite Hrun. simpl. unfold bind.
  rewrite (video_tick_no_frame t n w c Hcap (or_intror Hread)). reflexivity.
Qed.

(** C6.  In the GUI a frame-acquisition failure ends the video thread and
    nothing more: after Start, with the thread inside its first
    [cap.read()] and the read failing, the thread is finished while the
    session flag is still set, the camera handle is still open, the buttons
    still show a running session, the [update_gui] timer is still scheduled,
    and neither a release nor any other cleanup is on the trace. *)
Theorem gui_frame_failure_releases_nothing
  (tts : bool) (files : gmap string file) (t1 : tick) (out : model_out)
  (time : Q) (now1 now2 : datetime) (wr : write_outcome) (key : Z) :
  let failing := {| t_read := None; t_model := out; t_time := time;
                    t_now1 := now1; t_now2 := now2; t_write := wr;
                    t_key := key |} in
  let w := gui_run [Start true; Bg 0 t1; Bg 0 failing] (init_world tts files) in
  threads (gui w) = [{| th_pc := Finished; th_count := 0 |}] /\
  g_is_running (gui w) = true /\
  cap (sys w) = Some {| opened := true |} /\
  (start_button (gui w), stop_button (gui w)) = (false, true) /\
  timers (gui w) = 1%nat /\
  trace w = trace (init_world tts files) ++
    [CamOpen true;
     CamSet "CAP_PROP_FRAME_WIDTH" 640; CamSet "CAP_PROP_FRAME_HEIGHT" 480;
     VideoThread; After 30; CamRead true].
Proof.
  intros failing w. subst w failing.
  destruct tts; vm_compute; repeat split; reflexivity.
Qed.

(** ** Starting *)

(** What a refused camera leaves behind: the unopened handle and the
    printed error. *)
Definition refused (w : world) : world :=
  {| sys := set_cap (Some {| opened := false |}) (sys w);
     gui := gui w; fs := fs w;
     trace := trace w ++
       [CamOpen false; Printed "Error initializing camera: Could not open webcam"] |}.

Lemma initialize_camera_refused w :
  initialize_camera false w = (Ok false, refused w).
Proof.
  cbv beta iota zeta delta [initialize_camera try_except bind modify_sys emit
    print raise ret negb sys gui fs trace refused exn_str].
  rewrite <- app_assoc. reflexivity.
Qed.

(** C7.  When the camera does not open, [initialize_camera] reports it on
    the console and returns False.  [run_console_mode] then returns at once:
    the loop is not entered (no frame is read, nothing is classified or
    shown) and [is_running] is as before.  [start_camera] shows the error
    dialog and changes nothing of the GUI: the session flag, the buttons,
    the threads and the timers are as before, so no video thread is started
    and no [update_gui] is scheduled. *)
Theorem camera_failure_stays_idle (ticks : list tick) (w : world) :
  run_console_mode false ticks w = (Ok NotStarted, refused w) /\
  start_camera false w =
    (Ok tt, with_events (refused w)
              [ShowError "Error" "Could not initialize camera"]) /\
  is_running (sys (refused w)) = is_running (sys w) /\
  gui (refused w) = gui w /\
  fs (refused w) = fs w /\
  gui (gui_step (Start false) w) = gui w /\
  is_running (sys (gui_step (Start false) w)) = is_running (sys w) /\
  (forall tts files,
     is_running (sys (refused (init_world tts files))) = false /\
     g_is_running (gui (refused (init_world tts files))) = false /\
     threads (gui (refused (init_world tts files))) = []).
Proof.
  assert (start_camera false w =
            (Ok tt, with_events (refused w)
                      [ShowError "Error" "Could not initialize camera"])) as Hs.
  { unfold start_camera, bind. rewrite initialize_camera_refused. reflexivity. }
  repeat match goal with |- _ /\ _ => split end; try reflexivity.
  - unfold run_console_mode, bind. rewrite initialize_camera_refused.
    reflexivity.
  - exact Hs.
  - simpl. destruct (start_button (gui w)); [|reflexivity].
    unfold callback. rewrite Hs. reflexivity.
  - simpl. destruct (start_button (gui w)); [|reflexivity].
    unfold callback. rewrite Hs. reflexivity.
  - intros tts files. repeat split; reflexivity.
Qed.

(** ** The hand-off queue *)

(** The end of [update_gui]: schedule the next tick while the session runs. *)
Definition rescheduled (w : world) : world :=
  if g_is_running (gui w)
  then {| sys := sys w; gui := set_timers (S (timers (gui w))) (gui w);
          fs := fs w; trace := trace w ++ [After 30] |}
  else w.

(** The display after an item was taken from the queue. *)
Definition displayed (item : photo * string * Q) (rest : list (photo * string * Q))
  (w : world) : world :=
  {| sys := sys w;
     gui := set_info_labels ("Emotion: " +:+ upper (snd (fst item)))
              (ConfFmt (snd item))
              (set_video_label (Some (fst (fst item)), "")
                 (set_frame_queue rest (gui w)));
     fs := fs w; trace := trace w |}.

Lemma update_gui_eq w :
  update_gui w =
    (Ok tt,
     match frame_queue (gui w) with
     | [] => rescheduled w
     | item :: rest => rescheduled (displayed item rest w)
     end).
Proof.
  unfold update_gui, try_except, bind, get_gui, modify_gui, emit, ret,
    rescheduled, displayed.
  destruct w as [s g f tr]. simpl.
  destruct (frame_queue g) as [|[[p e] c] rest]; simpl;
    destruct (g_is_running g); reflexivity.
Qed.

Lemma rescheduled_display w :
  frame_queue (gui (rescheduled w)) = frame_queue (gui w) /\
  video_label (gui (rescheduled w)) = video_label (gui w) /\
  emotion_label (gui (rescheduled w)) = emotion_label (gui w) /\
  confidence_label (gui (rescheduled w)) = confidence_label (gui w).
Proof. unfold rescheduled. destruct (g_is_running (gui w)); auto. Qed.

Lemma bg_step_test tid n t w :
  threads (gui w) !! tid = Some {| th_pc := AtWhile; th_count := n |} ->
  bg_step tid t w =
    snd (set_thread tid
           {| th_pc := if g_is_running (gui w) then Reading else Finished;
              th_count := n |} w).
Proof. intros Hth. unfold bg_step. now rewrite Hth. Qed.

Lemma bg_step_read tid n t w :
  threads (gui w) !! tid = Some {| th_pc := Reading; th_count := n |} ->
  bg_step tid t w =
    match video_tick t n w with
    | (Ok (Continue, n'), w') =>
        snd (set_thread tid {| th_pc := AtWhile; th_count := n' |} w')
    | (Ok (Break, n'), w') =>
        snd (set_thread tid {| th_pc := Finished; th_count := n' |} w')
    | (Raise _, w') =>
        snd (set_thread tid {| th_pc := Finished; th_count := n |} w')
    end.
Proof. intros Hth. unfold bg_step. now rewrite Hth. Qed.

(** One pass of a video thread, in its two steps, on a frame whose
    classification (if it is due) fails: one more item is queued. *)
Lemma bg_pass tid n frame t w :
  cap (sys w) = Some {| opened := true |} ->
  g_is_running (gui w) = true ->
  threads (gui w) !! tid = Some {| th_pc := AtWhile; th_count := n |} ->
  t_read t = Some frame ->
  model_reading (t_model t) = None ->
  cap (sys (gui_step (Bg tid t) (gui_step (Bg tid t) w)))
    = Some {| opened := true |} /\
  g_is_running (gui (gui_step (Bg tid t) (gui_step (Bg tid t) w))) = true /\
  threads (gui (gui_step (Bg tid t) (gui_step (Bg tid t) w))) !! tid
    = Some {| th_pc := AtWhile; th_count := S n |} /\
  length (frame_queue (gui (gui_step (Bg tid t) (gui_step (Bg tid t) w))))
    = S (length (frame_queue (gui w))).
Proof.
  intros Hcap Hrun Hth Hread Hnone.
  assert (tid < length (threads (gui w)))%nat as Hlen
    by (eapply lookup_lt_Some; eauto).
  cbn [gui_step]. rewrite (bg_step_test tid n t w Hth), Hrun.
  set (w1 := snd (set_thread tid _ w)).
  assert (cap (sys w1) = Some {| opened := true |}) as Hcap1 by exact Hcap.
  assert (threads (gui w1) !! tid = Some {| th_pc := Reading; th_count := n |})
    as Hth1.
  { subst w1. cbn. now apply list_lookup_insert_eq. }
  assert (length (frame_queue (gui w1)) = length (frame_queue (gui w))) as Hq1
    by reflexivity.
  assert (g_is_running (gui w1) = true) as Hrun1 by exact Hrun.
  assert (tid < length (threads (gui w1)))%nat as Hlen1
    by (eapply lookup_lt_Some; eauto).
  clearbody w1. rewrite (bg_step_read tid n t w1 Hth1).
  rewrite (video_tick_frame t n frame w1 Hcap1 Hread).
  destruct (Nat.eqb (S n mod 3) 0).
  - destruct (video_classify_fail t (Flip frame) (frame_taken (Flip frame) w1) Hnone)
      as [msg ->].
    cbn. rewrite length_app. cbn. rewrite Hq1.
    rewrite list_lookup_insert_eq by assumption.
    repeat split; auto; lia.
  - cbn. rewrite length_app. cbn. rewrite Hq1.
    rewrite list_lookup_insert_eq by assumption.
    repeat split; auto; lia.
Qed.

(** [k] passes of video thread 0, nothing else moving. *)
Fixpoint passes (k : nat) (t : tick) : list action :=
  match k with
  | O => []
  | S k' => Bg 0 t :: Bg 0 t :: passes k' t
  end.

Lemma passes_queue k t frame : forall n w,
  cap (sys w) = Some {| opened := true |} ->
  g_is_running (gui w) = true ->
  threads (gui w) !! 0%nat = Some {| th_pc := AtWhile; th_count := n |} ->
  t_read t = Some frame ->
  model_reading (t_model t) = None ->
  length (frame_queue (gui (gui_run (passes k t) w))) =
    (k + length (frame_queue (gui w)))%nat.
Proof.
  induction k as [|k IH]; intros n w Hcap Hrun Hth Hread Hnone; [reflexivity|].
  cbn [passes gui_run fold_left].
  destruct (bg_pass 0 n frame t w Hcap Hrun Hth Hread Hnone)
    as (Hcap' & Hrun' & Hth' & Hlen').
  change (fold_left (fun w a => gui_step a w) (passes k t) ?x)
    with (gui_run (passes k t) x).
  rewrite (IH (S n) _ Hcap' Hrun' Hth' Hread Hnone), Hlen'. lia.
Qed.

(** The claim as it is worded: some bound holds for the queue on every
    schedule. *)
Definition queue_bounded_as_stated : Prop :=
  exists B : nat, forall sched,
    (length (frame_queue (gui (gui_run sched (init_world true ∅)))) <= B)%nat.

Lemma queue_grows (B : nat) :
  length (frame_queue
            (gui (gui_run (Start true :: passes (S B) (sample_tick 0 (Raises "") 0))
                    (init_world true ∅)))) = S B.
Proof.
  change (gui_run (Start true :: ?l) ?w) with (gui_run l (gui_step (Start true) w)).
  rewrite (passes_queue (S B) _ (Captured 0) 0%nat); try reflexivity.
  cbn. lia.
Qed.

(** C8, as stated, fails: [queue.Queue()] has no maxsize.  With the UI
    idle, B + 1 passes of the video thread leave B + 1 items queued, for
    every B. *)
Lemma queue_bounded_as_stated_fails : ~ queue_bounded_as_stated.
Proof.
  intros [B HB].
  specialize (HB (Start true :: passes (S B) (sample_tick 0 (Raises "") 0))).
  rewrite queue_grows in HB. lia.
Qed.

(** C8, amended.  The hand-off queue is a FIFO without a bound: every
    schedule-independent bound is exceeded by some run.  The UI tick
    [update_gui] never raises or waits; on an empty queue it leaves the
    queue and the display (image, emotion and confidence labels) as they
    were; otherwise it takes exactly the oldest item, leaves the rest
    queued, and displays that item. *)
Theorem update_gui_takes_at_most_one :
  (forall B : nat, exists sched,
     (B < length (frame_queue (gui (gui_run sched (init_world true ∅)))))%nat) /\
  (forall w, exists w', update_gui w = (Ok tt, w')) /\
  (forall w,
     frame_queue (gui w) = [] ->
     let w' := snd (update_gui w) in
     frame_queue (gui w') = [] /\
     video_label (gui w') = video_label (gui w) /\
     emotion_label (gui w') = emotion_label (gui w) /\
     confidence_label (gui w') = confidence_label (gui w)) /\
  (forall w frame_tk emotion confidence rest,
     frame_queue (gui w) = (frame_tk, emotion, confidence) :: rest ->
     let w' := snd (update_gui w) in
     frame_queue (gui w') = rest /\
     video_label (gui w') = (Some frame_tk, "") /\
     emotion_label (gui w') = "Emotion: " +:+ upper emotion /\
     confidence_label (gui w') = ConfFmt confidence).
Proof.
  repeat match goal with |- _ /\ _ => split end.
  - intros B.
    exists (Start true :: passes (S B) (sample_tick 0 (Raises "") 0)).
    rewrite queue_grows. lia.
  - intros w. rewrite update_gui_eq. eauto.
  - intros w Hq. rewrite update_gui_eq, Hq. cbn [snd].
    destruct (rescheduled_display w) as (H1 & H2 & H3 & H4).
    rewrite H1, H2, H3, H4. auto.
  - intros w frame_tk emotion confidence rest Hq.
    rewrite update_gui_eq, Hq. cbn [snd].
    destruct (rescheduled_display
                (displayed (frame_tk, emotion, confidence) rest w))
      as (H1 & H2 & H3 & H4).
    rewrite H1, H2, H3, H4. repeat split; reflexivity.
Qed.

(** A GUI session with one frame waiting in the queue. *)
Definition one_queued : world :=
  gui_run [Start true; Bg 0 (sample_tick 1 (Raises "") 0);
           Bg 0 (sample_tick 1 (Raises "") 0)] (init_world true ∅).

Lemma update_gui_takes_at_most_one_witness :
  (frame_queue (gui (snd (update_gui (init_world true ∅)))) = [] /\
   video_label (gui (snd (update_gui (init_world true ∅))))
     = (None, "Camera feed will appear here")) /\
  (frame_queue (gui one_queued) = [(PhotoImage (Flip (Captured 1)), "Unknown", 0%Q)] /\
   frame_queue (gui (snd (update_gui one_queued))) = [] /\
   video_label (gui (snd (update_gui one_queued)))
     = (Some (PhotoImage (Flip (Captured 1))), "") /\
   emotion_label (gui (snd (update_gui one_queued))) = "Emotion: UNKNOWN").
Proof.
  destruct update_gui_takes_at_most_one as (_ & _ & Hempty & Htake).
  split.
  - destruct (Hempty (init_world true ∅) eq_refl) as (Hq & Hv & _).
    split; [exact Hq | exact Hv].
  - destruct (Htake one_queued (PhotoImage (Flip (Captured 1))) "Unknown" 0%Q []
                eq_refl) as (Hq & Hv & He & _).
    split; [reflexivity|]. split; [exact Hq|]. split; [exact Hv | exact He].
Defined.

(** ** Stopping *)



Lemma stop_camera_eq w c :
  cap (sys w) = Some c ->
  stop_camera w =
    (Ok tt,
     {| sys := set_cap (Some {| opened := false |}) (set_is_running false (sys w));
        gui := set_video_label (None, "Camera stopped")
                 (set_buttons true false (set_g_is_running false (gui w)));
        fs := fs w;
        trace := trace w ++
          [CamRelease; DestroyAllWindows; Printed "System stopped successfully!"] |}).
Proof.
  intros Hcap.
  destruct w as [s g f tr]. simpl in Hcap.
  unfold stop_camera, cleanup, bind, modify_gui, modify_sys, get_sys, emit,
    print, emit, ret. simpl. rewrite Hcap. simpl.
  rewrite <- !app_assoc. reflexivity.
Qed.





(** ** Screenshots *)

Definition no_frame_yet (w : world) : Prop := current_frame (gui w) = None.

(** A step in which the camera delivers no frame. *)
Definition no_frame (a : action) : Prop :=
  match a with
  | Bg _ t => t_read t = None
  | _ => True
  end.

Lemma no_frame_yet_emit e : preserves no_frame_yet (emit e).
Proof. intros w H. exact H. Qed.

Lemma no_frame_yet_modify_sys f : preserves no_frame_yet (modify_sys f).
Proof. intros w H. exact H. Qed.

Lemma no_frame_yet_put_file p c : preserves no_frame_yet (put_file p c).
Proof. intros w H. exact H. Qed.

Lemma no_frame_yet_modify_gui f :
  (forall g, current_frame (f g) = current_frame g) ->
  preserves no_frame_yet (modify_gui f).
Proof. intros Hf w H. unfold no_frame_yet, modify_gui. simpl. now rewrite Hf. Qed.

#[local] Hint Resolve no_frame_yet_emit no_frame_yet_modify_sys
  no_frame_yet_put_file : frame.
#[local] Hint Extern 1 (preserves no_frame_yet (print _)) =>
  apply no_frame_yet_emit : frame.
#[local] Hint Extern 1 (preserves no_frame_yet (modify_gui _)) =>
  apply no_frame_yet_modify_gui; intros ?; reflexivity : frame.

Lemma no_frame_yet_start_camera ok : preserves no_frame_yet (start_camera ok).
Proof. unfold start_camera, initialize_camera, update_gui. frame. Qed.

Lemma no_frame_yet_stop_camera : preserves no_frame_yet stop_camera.
Proof. unfold stop_camera, cleanup. frame. Qed.

Lemma no_frame_yet_toggle_voice : preserves no_frame_yet toggle_voice.
Proof. unfold toggle_voice. frame. Qed.

Lemma no_frame_yet_take_screenshot now :
  preserves no_frame_yet (take_screenshot now).
Proof. unfold take_screenshot. frame. Qed.

Lemma no_frame_yet_update_gui : preserves no_frame_yet update_gui.
Proof. unfold update_gui. frame. Qed.

Lemma no_frame_yet_video_tick t n :
  t_read t = None -> preserves no_frame_yet (video_tick t n).
Proof.
  intros Hread w H. unfold video_tick, cap_read, bind, get_sys, emit, ret, raise.
  rewrite Hread. destruct (cap (sys w)) as [c|]; [|exact H].
  destruct (opened c); exact H.
Qed.

Lemma no_frame_yet_gui_step a w :
  no_frame a -> no_frame_yet w -> no_frame_yet (gui_step a w).
Proof.
  intros Ha H. destruct a; simpl; unfold callback.
  - destruct (start_button _); [now apply no_frame_yet_start_camera | exact H].
  - destruct (stop_button _); [now apply no_frame_yet_stop_camera | exact H].
  - now apply no_frame_yet_toggle_voice.
  - now apply no_frame_yet_take_screenshot.
  - destruct (timers _); [exact H|].
    apply (preserves_bind no_frame_yet); auto with frame.
    intros _. apply no_frame_yet_update_gui.
  - unfold bg_step. destruct (_ !! _) as [th|]; [|exact H].
    destruct (th_pc th); [exact H| |exact H].
    pose proof (no_frame_yet_video_tick t (th_count th) Ha w H) as H'.
    destruct (video_tick _ _ _) as [[[[|] n]|e] w']; exact H'.
Qed.

Lemma no_frame_yet_gui_run sched : forall w,
  Forall no_frame sched -> no_frame_yet w -> no_frame_yet (gui_run sched w).
Proof.
  unfold gui_run. induction sched as [|a sched IH]; intros w Hs H; simpl;
    [exact H|].
  apply Forall_cons in Hs as [Ha Hs].
  apply IH; [exact Hs|]. now apply no_frame_yet_gui_step.
Qed.

(** C10.  In the GUI, as long as no frame has been captured (whatever
    buttons were pressed, timers fired and failed reads happened since the
    application started), the screenshot command returns normally and
    leaves the whole world as it was: no file written, no dialog, no
    error. *)
Theorem screenshot_before_first_frame
  (tts : bool) (files : gmap string file) (sched : list action) (now : datetime) :
  Forall no_frame sched ->
  take_screenshot now (gui_run sched (init_world tts files)) =
    (Ok tt, gui_run sched (init_world tts files)) /\
  gui_step (Screenshot now) (gui_run sched (init_world tts files)) =
    gui_run sched (init_world tts files).
Proof.
  intros Hs.
  assert (no_frame_yet (gui_run sched (init_world tts files))) as H.
  { apply no_frame_yet_gui_run; [exact Hs|reflexivity]. }
  assert (take_screenshot now (gui_run sched (init_world tts files)) =
            (Ok tt, gui_run sched (init_world tts files))) as Heq.
  { unfold take_screenshot, bind, get_gui. unfold no_frame_yet in H.
    now rewrite H. }
  split; [exact Heq|]. cbn [gui_step]. unfold callback. now rewrite Heq.
Qed.

Definition sample_failing_tick : tick :=
  {| t_read := None; t_model := Raises ""; t_time := 0;
     t_now1 := sample_day; t_now2 := sample_day; t_write := Written;
     t_key := (-1)%Z |}.

Definition sample_quiet_schedule : list action :=
  [ToggleVoice; Start true; Timer; Bg 0 sample_failing_tick;
   Bg 0 sample_failing_tick; Stop].

Lemma screenshot_before_first_frame_witness :
  Forall no_frame sample_quiet_schedule /\
  gui_step (Screenshot sample_day)
    (gui_run sample_quiet_schedule (init_world true ∅)) =
  gui_run sample_quiet_schedule (init_world true ∅).
Proof.
  assert (Forall no_frame sample_quiet_schedule) as Hs
    by (repeat constructor).
  split; [exact Hs|].
  exact (proj2 (screenshot_before_first_frame true ∅ sample_quiet_schedule
                  sample_day Hs)).
Defined.

(** ** Decimation in [process_video] *)

(** How often the classifier was called. *)
Fixpoint analyses (tr : list event) : nat :=
  match tr with
  | [] => 0
  | Analyze _ :: tr' => S (analyses tr')
  | _ :: tr' => analyses tr'
  end.

Lemma analyses_app tr1 tr2 :
  analyses (tr1 ++ tr2) = (analyses tr1 + analyses tr2)%nat.
Proof.
  induction tr1 as [|e tr1 IH]; simpl; [reflexivity|].
  destruct e; simpl; lia.
Qed.

(** The classification block of [process_video] never raises, calls the
    classifier once and touches neither the GUI nor the camera handle. *)
Lemma video_classify_once t frame w :
  exists w',
    video_classify t frame w = (Ok tt, w') /\
    analyses (trace w') = S (analyses (trace w)) /\
    gui w' = gui w /\ cap (sys w') = cap (sys w).
Proof.
  unfold video_classify. unfold bind at 1.
  destruct (detect_emotion_eq frame (t_model t) w) as (tr & -> & Htr).
  assert (analyses tr = 1%nat) as Han.
  { destruct tr as [|[] [|[] [|]]]; try contradiction; reflexivity. }
  destruct (default unknown_reading (model_reading (t_model t))) as [[e c] a].
  destruct (negb (String.eqb e "unknown")).
  - unfold bind at 1. unfold modify_sys at 1. cbn [sys gui fs trace].
    unfold bind at 1.
    match goal with |- context [log_emotion e c a ?n1 ?n2 ?wr ?w0] =>
      destruct (log_emotion_eq e c a n1 n2 wr w0) as [msg ->] end.
    rewrite notify_eq. eexists. split; [reflexivity|].
    cbn [sys gui fs trace].
    destruct (appended _ _); [destruct (t_write t)|];
      destruct (voice_due _ _ _);
      cbn [written_back with_events sys gui fs trace];
      rewrite !analyses_app, Han; simpl; repeat split; lia.
  - eexists. split; [reflexivity|]. cbn [sys gui fs trace].
    rewrite analyses_app, Han. repeat split; lia.
Qed.

(** A pass of [process_video] that reads a frame: the classifier is called
    exactly when the frame counter reaches a multiple of 3, and on the other
    passes the system state is untouched and the reading published with the
    frame is the current one. *)
Lemma video_tick_decimation t n frame w :
  cap (sys w) = Some {| opened := true |} ->
  t_read t = Some frame ->
  exists w',
    video_tick t n w = (Ok (Continue, S n), w') /\
    analyses (trace w') =
      (analyses (trace w) + if Nat.eqb (S n mod 3) 0 then 1 else 0)%nat /\
    cap (sys w') = Some {| opened := true |} /\
    g_is_running (gui w') = g_is_running (gui w) /\
    (S n mod 3 <> 0%nat ->
     sys w' = sys w /\
     frame_queue (gui w') =
       frame_queue (gui w) ++
       [(PhotoImage (Flip frame), current_emotion (sys w),
         current_confidence (sys w))]).
Proof.
  intros Hcap Hread. rewrite (video_tick_frame t n frame w Hcap Hread).
  destruct (Nat.eqb_spec (S n mod 3) 0) as [Hz|Hnz].
  - destruct (video_classify_once t (Flip frame) (frame_taken (Flip frame) w))
      as (w' & -> & Han & Hgui & Hcap').
    eexists. split; [reflexivity|].
    cbn [published sys gui fs trace]. rewrite Han, Hcap', Hgui.
    cbn [frame_taken sys gui fs trace]. rewrite analyses_app. simpl.
    repeat split; try assumption; try lia; contradiction.
  - eexists. split; [reflexivity|].
    cbn [published frame_taken sys gui fs trace]. rewrite analyses_app. simpl.
    repeat split; try assumption; lia.
Qed.

(** Over k passes that all read a frame, starting with the frame counter at
    n, the classifier is called once for every multiple of 3 in n+1 .. n+k;
    from 0 that is k / 3 calls. *)
Lemma process_video_decimation ticks : forall n w,
  Forall (fun t => is_Some (t_read t)) ticks ->
  cap (sys w) = Some {| opened := true |} ->
  g_is_running (gui w) = true ->
  exists w',
    process_video ticks n w = (Ok StillRunning, w') /\
    analyses (trace w') =
      (analyses (trace w) + ((n + length ticks) / 3 - n / 3))%nat.
Proof.
  induction ticks as [|t ts IH]; intros n w Hall Hcap Hrun.
  - simpl. unfold bind, get_gui. rewrite Hrun. simpl.
    eexists. split; [reflexivity|]. rewrite Nat.add_0_r. lia.
  - apply Forall_cons in Hall as [[frame Hread] Hall].
    destruct (video_tick_decimation t n frame w Hcap Hread)
      as (w1 & Heq & Han & Hcap1 & Hrun1 & _).
    rewrite Hrun in Hrun1.
    destruct (IH (S n) w1 Hall Hcap1 Hrun1) as (w' & Heq' & Han').
    exists w'. split.
    + simpl. unfold bind at 1. unfold get_gui. rewrite Hrun. simpl.
      unfold bind. rewrite Heq. simpl. exact Heq'.
    + rewrite Han', Han. simpl length.
      replace (n + S (length ts))%nat with (S n + length ts)%nat by lia.
      assert (S n / 3 = n / 3 + if Nat.eqb (S n mod 3) 0 then 1 else 0)%nat as Hdiv.
      { destruct (Nat.eqb_spec (S n mod 3) 0) as [Hz|Hnz].
        - pose proof (Nat.div_mod_eq (S n) 3). pose proof (Nat.div_mod_eq n 3).
          pose proof (Nat.mod_upper_bound n 3). lia.
        - pose proof (Nat.div_mod_eq (S n) 3). pose proof (Nat.div_mod_eq n 3).
          pose proof (Nat.mod_upper_bound n 3).
          pose proof (Nat.mod_upper_bound (S n) 3). lia. }
      assert (S n / 3 <= (S n + length ts) / 3)%nat
        by (apply Nat.Div0.div_le_mono; lia).
      lia.
Qed.

(** * Further properties of the code *)

(** ** One log file per day *)

Lemma pad_inj w n n' : pad w n = pad w n' -> n = n'.
Proof.
  intros H. apply (f_equal undec) in H. rewrite !undec_pad in H. congruence.
Qed.

Lemma length_append (s t : string) :
  String.length (s +:+ t) = (String.length s + String.length t)%nat.
Proof. induction s as [|c s IH]; simpl; [reflexivity | now rewrite IH]. Qed.

Lemma length_zeros k : String.length (zeros k) = k.
Proof.
  induction k as [|k IH]; [reflexivity|].
  change (zeros (S k)) with (String "0" (zeros k)). simpl. now rewrite IH.
Qed.

(** Strings of equal length split an equal concatenation the same way. *)
Lemma append_inj (a a' b b' : string) :
  String.length a = String.length a' ->
  a +:+ b = a' +:+ b' -> a = a' /\ b = b'.
Proof.
  revert a'. induction a as [|c a IH]; intros [|c' a'] Hlen H; simpl in *;
    try discriminate.
  - auto.
  - injection H as -> H. injection Hlen as Hlen.
    destruct (IH a' Hlen H) as [-> ->]. auto.
Qed.

Lemma append_inv_tail (a a' t : string) : a +:+ t = a' +:+ t -> a = a'.
Proof.
  intros H. apply (append_inj a a' t t); [|exact H].
  apply (f_equal String.length) in H. rewrite !length_append in H. lia.
Qed.

(** The decimal digits of a number below [10 ^ w] fill at most [w] places. *)
Definition fits (w n : nat) : bool := Nat.leb (String.length (dec n)) w.

Lemma fits_below w bound :
  forallb (fits w) (seq 0 bound) = true ->
  forall n, (n < bound)%nat -> String.length (pad w n) = w.
Proof.
  intros Hall n Hn. rewrite forallb_forall in Hall.
  assert (fits w n = true) as Hf.
  { apply Hall. apply in_seq. lia. }
  unfold fits in Hf. apply Nat.leb_le in Hf.
  unfold pad. rewrite length_append, length_zeros. lia.
Qed.

Lemma length_pad2 n : (n < 100)%nat -> String.length (pad 2 n) = 2%nat.
Proof. apply fits_below. vm_compute. reflexivity. Qed.

Lemma length_pad4 n :
  (Z.of_nat n <= 9999)%Z -> String.length (pad 4 n) = 4%nat.
Proof.
  intros Hn. apply (fits_below 4 (100 * 100)); [vm_compute; reflexivity | lia].
Qed.

(** A date as [datetime.now()] can deliver it, with a four-digit year. *)
Definition valid_date (d : datetime) : Prop :=
  (1000 <= Z.of_nat (year d) <= 9999)%Z /\
  (1 <= month d <= 12)%nat /\ (1 <= day d <= 31)%nat.

Lemma strftime_Ymd_inj d d' :
  valid_date d -> valid_date d' ->
  strftime_Ymd d = strftime_Ymd d' -> same_day d d'.
Proof.
  intros (Hy & Hm & Hd) (Hy' & Hm' & Hd') H. unfold strftime_Ymd in H.
  apply append_inj in H as [Hyear H];
    [|rewrite !length_pad4 by lia; reflexivity].
  apply append_inj in H as [Hmonth Hday];
    [|rewrite !length_pad2 by lia; reflexivity].
  repeat split; eapply pad_inj; eassumption.
Qed.

(** X1.  The log file name determines the calendar day: two clock readings
    (valid dates with four-digit years) select the same log file exactly
    when they are of the same day, and the name carries eight date digits
    from which year, month and day are read back. *)
Theorem log_file_per_day (d d' : datetime) :
  valid_date d -> valid_date d' ->
  (log_path (strftime_Ymd d) = log_path (strftime_Ymd d') <-> same_day d d') /\
  String.length (strftime_Ymd d) = 8%nat /\
  undec (substring 0 4 (strftime_Ymd d)) = Some (year d) /\
  undec (substring 4 2 (strftime_Ymd d)) = Some (month d) /\
  undec (substring 6 2 (strftime_Ymd d)) = Some (day d).
Proof.
  intros Hv Hv'. split; [split|].
  - intros H. apply (strftime_Ymd_inj d d' Hv Hv').
    unfold log_path in H.
    apply (append_inj "logs/emotion_log_" "logs/emotion_log_") in H as [_ H];
      [|reflexivity].
    now apply append_inv_tail in H.
  - apply same_day_path.
  - destruct Hv as (Hy & Hm & Hd).
    pose proof (length_pad4 (year d) ltac:(lia)) as L4.
    pose proof (length_pad2 (month d) ltac:(lia)) as Lm.
    pose proof (length_pad2 (day d) ltac:(lia)) as Ld.
    unfold strftime_Ymd.
    destruct (pad 4 (year d)) as [|y1 [|y2 [|y3 [|y4 [|]]]]] eqn:Ey;
      try discriminate L4.
    destruct (pad 2 (month d)) as [|m1 [|m2 [|]]] eqn:Em; try discriminate Lm.
    destruct (pad 2 (day d)) as [|d1 [|d2 [|]]] eqn:Ed; try discriminate Ld.
    cbv beta iota delta [String.append substring String.length].
    rewrite <- Ey, <- Em, <- Ed, !undec_pad. auto.
Qed.

Definition sample_next_day : datetime :=
  {| year := 2024; month := 3; day := 8;
     hour := 0; minute := 0; second := 0; microsecond := 0 |}.

Lemma log_file_per_day_witness :
  log_path (strftime_Ymd sample_day) <> log_path (strftime_Ymd sample_next_day) /\
  strftime_Ymd sample_day = "20240307".
Proof.
  assert (valid_date sample_day) as Hv by (unfold valid_date; simpl; lia).
  assert (valid_date sample_next_day) as Hv' by (unfold valid_date; simpl; lia).
  destruct (log_file_per_day sample_day sample_next_day Hv Hv') as [Hiff _].
  split; [|reflexivity].
  intros H. apply Hiff in H. destruct H as (_ & _ & Hd). discriminate Hd.
Defined.

(** ** What the program does to the log files *)

(** A property of the file store alone. *)
Definition files_are (P : gmap string file -> Prop) (w : world) : Prop :=
  P (fs w).

Lemma files_emit P e : preserves (files_are P) (emit e).
Proof. intros w H. exact H. Qed.

Lemma files_modify_sys P f : preserves (files_are P) (modify_sys f).
Proof. intros w H. exact H. Qed.

Lemma files_modify_gui P f : preserves (files_are P) (modify_gui f).
Proof. intros w H. exact H. Qed.

#[local] Hint Resolve files_emit files_modify_sys files_modify_gui : frame.
#[local] Hint Extern 1 (preserves (files_are _) (print _)) =>
  apply files_emit : frame.

(** [json.dump] does not break off half-way. *)
Definition dump_ok (wr : write_outcome) : bool :=
  match wr with
  | DumpFails _ _ => false
  | _ => true
  end.

(** A log file that held an array of records which load as they stand (no
    object in them has a key twice) holds an array that starts with these
    records. *)
Definition grown (F0 F : gmap string file) : Prop :=
  forall ymd i l,
    F0 !! log_path ymd = Some (JsonDoc i (JArr l)) ->
    map json_value l = l ->
    exists i' l', F !! log_path ymd = Some (JsonDoc i' (JArr (l ++ l'))).

(** A log file that held anything but a JSON array is as it was. *)
Definition kept (F0 F : gmap string file) : Prop :=
  forall ymd f,
    F0 !! log_path ymd = Some f -> stored (Some f) = None ->
    F !! log_path ymd = Some f.



Lemma stored_None_appended f entry :
  stored (Some f) = None -> appended (Some f) entry = None.
Proof.
  unfold appended. destruct f as [i [| | | |l|]|b]; simpl; congruence.
Qed.

Lemma grown_log_emotion F0 e c a n1 n2 wr :
  dump_ok wr = true ->
  preserves (files_are (grown F0)) (log_emotion e c a n1 n2 wr).
Proof.
  intros Hwr w H. unfold files_are in *.
  destruct (log_emotion_eq e c a n1 n2 wr w) as [msg ->]. cbn [snd].
  set (path := log_path (strftime_Ymd n2)) in *.
  set (entry := log_entry (isoformat n1) e c a) in *.
  destruct (appended (fs w !! path) entry) as [doc|] eqn:Happ; [|exact H].
  destruct wr; [|exact H|discriminate Hwr].
  cbn [written_back fs]. intros ymd i l H0 Hplain.
  destruct (H ymd i l H0 Hplain) as (i' & l' & Hl).
  destruct (decide (log_path ymd = path)) as [Heq|Hne].
  - rewrite Heq, lookup_insert_eq. rewrite Heq in Hl.
    unfold appended in Happ. rewrite Hl in Happ. cbn [loaded json_value] in Happ.
    injection Happ as <-. rewrite map_app, Hplain.
    exists (Some 2%nat), (map json_value l' ++ [entry]).
    now rewrite app_assoc.
  - rewrite lookup_insert_ne by congruence. eauto.
Qed.

Lemma kept_log_emotion F0 e c a n1 n2 wr :
  preserves (files_are (kept F0)) (log_emotion e c a n1 n2 wr).
Proof.
  intros w H. unfold files_are in *.
  destruct (log_emotion_eq e c a n1 n2 wr w) as [msg ->]. cbn [snd].
  set (path := log_path (strftime_Ymd n2)) in *.
  set (entry := log_entry (isoformat n1) e c a) in *.
  destruct (appended (fs w !! path) entry) as [doc|] eqn:Happ; [|exact H].
  assert (forall c0, kept F0 (<[path := c0]> (fs w))) as Hins.
  { intros c0 ymd f H0 Hs. pose proof (H ymd f H0 Hs) as Hf.
    destruct (decide (log_path ymd = path)) as [Heq|Hne].
    - rewrite Heq in Hf. rewrite Hf in Happ.
      now rewrite (stored_None_appended f entry Hs) in Happ.
    - now rewrite lookup_insert_ne by congruence. }
  destruct wr; cbn [written_back with_events fs]; auto.
Qed.

#[local] Hint Resolve kept_log_emotion : frame.
#[local] Hint Extern 1 (preserves (files_are (grown _)) (log_emotion _ _ _ _ _ _)) =>
  apply grown_log_emotion; assumption : frame.














(** X3.  When the day's log file exists but does not hold a JSON array
    (unparsable bytes, or another JSON value), every append of that day is
    dropped: [log_emotion] does not raise, the file store is left exactly
    as it was, and one "Logging error: ..." line is printed per append. *)
Theorem broken_log_drops_appends
  (reqs : list append) (d : datetime) (f : file) (w : world) :
  fs w !! log_path (strftime_Ymd d) = Some f ->
  stored (Some f) = None ->
  Forall (fun a => same_day (a_now2 a) d) reqs ->
  exists msgs,
    log_all reqs w =
      (Ok tt, with_events w (map (fun m => Printed ("Logging error: " +:+ m)) msgs)) /\
    length msgs = length reqs.
Proof.
  intros Hf Hs Hday. revert w Hf.
  induction reqs as [|a rest IH]; intros w Hf; simpl.
  - exists []. split; [|reflexivity]. unfold ret, with_events. simpl.
    rewrite app_nil_r. now destruct w.
  - apply Forall_cons in Hday as [Ha Hrest].
    unfold bind.
    assert (exists m, log_emotion (a_emotion a) (a_confidence a) (a_all a)
              (a_now1 a) (a_now2 a) (a_write a) w =
              (Ok tt, with_events w [Printed ("Logging error: " +:+ m)])) as [m ->].
    { unfold log_emotion, try_except, bind, get_fs.
      rewrite (same_day_path _ _ Ha), Hf.
      destruct (decide (is_Some (Some f))) as [_|Hn]; [|exfalso; apply Hn; eauto].
      unfold json_load, bind, get_fs. rewrite Hf.
      destruct f as [i [| | | |l|]|b]; simpl in Hs; try discriminate;
        eexists; reflexivity. }
    destruct (IH Hrest (with_events w [Printed ("Logging error: " +:+ m)]) Hf)
      as (msgs & -> & Hlen).
    exists (m :: msgs). split; [|simpl; congruence].
    unfold with_events. simpl. now rewrite <- app_assoc.
Qed.

Definition sample_broken_files : gmap string file :=
  {[ "logs/emotion_log_20240307.json" := Garbage "[{" ]}.

Lemma broken_log_drops_appends_witness :
  fs (snd (log_all sample_appends (init_world true sample_broken_files)))
    = sample_broken_files /\
  exists msgs,
    trace (snd (log_all sample_appends (init_world true sample_broken_files)))
      = map (fun m => Printed ("Logging error: " +:+ m)) msgs /\
    length msgs = 2%nat.
Proof.
  destruct (broken_log_drops_appends sample_appends sample_day (Garbage "[{")
              (init_world true sample_broken_files))
    as (msgs & Heq & Hlen).
  - reflexivity.
  - reflexivity.
  - repeat constructor.
  - rewrite Heq. split; [reflexivity|]. exists msgs. split; [reflexivity|exact Hlen].
Defined.

(** ** The GUI session's bookkeeping *)

(** The fields that say whether a session runs. *)
Definition controls (w : world)
  : option camera * bool * bool * bool * bool * nat :=
  (cap (sys w), is_running (sys w), g_is_running (gui w),
   start_button (gui w), stop_button (gui w), timers (gui w)).

Definition controls_are (k : option camera * bool * bool * bool * bool * nat)
  (w : world) : Prop := controls w = k.

Lemma controls_emit k e : preserves (controls_are k) (emit e).
Proof. intros w H. exact H. Qed.

Lemma controls_put_file k p c : preserves (controls_are k) (put_file p c).
Proof. intros w H. exact H. Qed.

Lemma controls_modify_sys k f :
  (forall s, cap (f s) = cap s /\ is_running (f s) = is_running s) ->
  preserves (controls_are k) (modify_sys f).
Proof.
  intros Hf w H. unfold controls_are, controls, modify_sys in *. simpl.
  destruct (Hf (sys w)) as [-> ->]. exact H.
Qed.

Lemma controls_modify_gui k f :
  (forall g, g_is_running (f g) = g_is_running g /\
             start_button (f g) = start_button g /\
             stop_button (f g) = stop_button g /\ timers (f g) = timers g) ->
  preserves (controls_are k) (modify_gui f).
Proof.
  intros Hf w H. unfold controls_are, controls, modify_gui in *. simpl.
  destruct (Hf (gui w)) as (-> & -> & -> & ->). exact H.
Qed.

#[local] Hint Resolve controls_emit controls_put_file : frame.
#[local] Hint Extern 1 (preserves (controls_are _) (print _)) =>
  apply controls_emit : frame.
#[local] Hint Extern 1 (preserves (controls_are _) (modify_sys _)) =>
  apply controls_modify_sys; intros ?; split; reflexivity : frame.
#[local] Hint Extern 1 (preserves (controls_are _) (modify_gui _)) =>
  apply controls_modify_gui; intros ?; repeat split; reflexivity : frame.

Lemma controls_video_tick k t n : preserves (controls_are k) (video_tick t n).
Proof.
  unfold video_tick, cap_read, video_classify, detect_emotion,
    DeepFace_analyze, field, getitem, log_emotion, json_load, py_append,
    json_dump, notify, speak_emotion. frame.
Qed.

Lemma controls_toggle_voice k : preserves (controls_are k) toggle_voice.
Proof. unfold toggle_voice. frame. Qed.

Lemma controls_take_screenshot k now :
  preserves (controls_are k) (take_screenshot now).
Proof. unfold take_screenshot. frame. Qed.

Lemma controls_bg_step tid t w : controls (bg_step tid t w) = controls w.
Proof.
  unfold bg_step. destruct (_ !! _) as [th|]; [|reflexivity].
  destruct (th_pc th); [reflexivity| |reflexivity].
  pose proof (controls_video_tick (controls w) t (th_count th) w eq_refl) as H.
  destruct (video_tick _ _ _) as [[[[|] n]|e] w']; exact H.
Qed.

(** The world [start_camera] hands to its closing [update_gui] call when
    the camera opened. *)
Definition started (w : world) : world :=
  {| sys := set_cap (Some {| opened := true |}) (sys w);
     gui := set_threads (threads (gui w) ++ [{| th_pc := AtWhile; th_count := 0 |}])
              (set_buttons false true (set_g_is_running true (gui w)));
     fs := fs w;
     trace := trace w ++
       [CamOpen true;
        CamSet "CAP_PROP_FRAME_WIDTH" 640; CamSet "CAP_PROP_FRAME_HEIGHT" 480;
        VideoThread] |}.

Lemma start_camera_ok_eq w : start_camera true w = update_gui (started w).
Proof.
  destruct w as [s g f tr].
  unfold start_camera, initialize_camera, try_except. unfold bind at 1.
  cbv beta iota zeta delta [bind modify_sys modify_gui emit ret negb
    sys gui fs trace].
  unfold started. cbn [sys gui fs trace]. rewrite <- !app_assoc. reflexivity.
Qed.

Definition cam_open (w : world) : bool :=
  match cap (sys w) with
  | Some c => opened c
  | None => false
  end.

(** What holds of the GUI session between any two steps. *)
Definition session_inv (w : world) : Prop :=
  cam_open w = g_is_running (gui w) /\
  stop_button (gui w) = g_is_running (gui w) /\
  start_button (gui w) = negb (g_is_running (gui w)) /\
  is_running (sys w) = false /\
  (g_is_running (gui w) = true -> (1 <= timers (gui w))%nat).

Lemma session_inv_controls w w' :
  controls w' = controls w -> session_inv w -> session_inv w'.
Proof.
  unfold controls, session_inv, cam_open. intros [= Hc Hr Hg Hs Hp Ht].
  now rewrite Hc, Hr, Hg, Hs, Hp, Ht.
Qed.

Lemma session_inv_update_gui w :
  cam_open w = g_is_running (gui w) ->
  stop_button (gui w) = g_is_running (gui w) ->
  start_button (gui w) = negb (g_is_running (gui w)) ->
  is_running (sys w) = false ->
  session_inv (snd (update_gui w)).
Proof.
  intros Hc Hs Hp Hr. rewrite update_gui_eq. cbn [snd].
  unfold session_inv, cam_open, rescheduled, displayed in *.
  destruct (frame_queue (gui w)) as [|item rest];
    cbn [sys gui g_is_running set_info_labels set_video_label set_frame_queue];
    destruct (g_is_running (gui w)) eqn:Hrun;
    cbn [sys gui g_is_running stop_button start_button timers set_timers
         set_info_labels set_video_label set_frame_queue];
    rewrite ?Hrun; repeat split; auto; try lia; discriminate.
Qed.

Lemma session_inv_gui_step a w : session_inv w -> session_inv (gui_step a w).
Proof.
  intros H. pose proof H as (Hc & Hs & Hp & Hr & Ht).
  destruct a as [cam_ok| | |now| |tid t]; cbn [gui_step]; unfold callback.
  - destruct (start_button (gui w)) eqn:Hsb; [|exact H].
    destruct cam_ok.
    + rewrite start_camera_ok_eq.
      apply session_inv_update_gui; unfold cam_open; cbn; auto.
    + unfold start_camera, bind. rewrite initialize_camera_refused.
      cbn [negb emit snd].
      assert (g_is_running (gui w) = false) as Hrun
        by (destruct (g_is_running (gui w)); [discriminate Hp|reflexivity]).
      unfold session_inv, cam_open. cbn. rewrite Hs, Hp, Hr, Hrun.
      repeat split; auto; discriminate.
  - destruct (stop_button (gui w)) eqn:Hsb; [|exact H].
    assert (g_is_running (gui w) = true) as Hrun by congruence.
    unfold cam_open in Hc. rewrite Hrun in Hc.
    destruct (cap (sys w)) as [c|] eqn:Hcap; [|discriminate].
    rewrite (stop_camera_eq w c Hcap). cbn [snd].
    unfold session_inv, cam_open. cbn. repeat split; auto; discriminate.
  - eapply session_inv_controls; [|exact H].
    now apply (controls_toggle_voice (controls w)).
  - eapply session_inv_controls; [|exact H].
    now apply (controls_take_screenshot (controls w)).
  - destruct (timers (gui w)) as [|n] eqn:Htm; [exact H|].
    unfold bind, modify_gui. cbn [fst snd].
    apply session_inv_update_gui; cbn; auto.
  - eapply session_inv_controls; [apply controls_bg_step | exact H].
Qed.

Lemma session_inv_gui_run sched : forall w,
  session_inv w -> session_inv (gui_run sched w).
Proof.
  unfold gui_run. induction sched as [|a sched IH]; intros w H; simpl;
    [exact H|].
  apply IH. now apply session_inv_gui_step.
Qed.

Lemma session_inv_init tts files : session_inv (init_world tts files).
Proof. unfold session_inv, cam_open. cbn. repeat split; auto; discriminate. Qed.

(** X4.  In the GUI, between any two steps of any schedule: the camera
    handle is open exactly when the session flag [EmotionGUI.is_running] is
    set, the Stop button is enabled exactly then and the Start button
    exactly otherwise, and [EmotionRecognitionSystem.is_running] is never
    set. *)
Theorem gui_camera_follows_flag
  (tts : bool) (files : gmap string file) (sched : list action) :
  cam_open (gui_run sched (init_world tts files))
    = g_is_running (gui (gui_run sched (init_world tts files))) /\
  stop_button (gui (gui_run sched (init_world tts files)))
    = g_is_running (gui (gui_run sched (init_world tts files))) /\
  start_button (gui (gui_run sched (init_world tts files)))
    = negb (g_is_running (gui (gui_run sched (init_world tts files)))) /\
  is_running (sys (gui_run sched (init_world tts files))) = false.
Proof.
  destruct (session_inv_gui_run sched _ (session_inv_init tts files))
    as (H1 & H2 & H3 & H4 & _). auto.
Qed.

(** X5.  The [update_gui] timer chain: on every schedule, while the session
    flag is set at least one [update_gui] call is pending; and a pending
    call that fires with the flag cleared schedules no further one. *)
Theorem update_gui_chain
  (tts : bool) (files : gmap string file) (sched : list action) :
  (g_is_running (gui (gui_run sched (init_world tts files))) = true ->
   (1 <= timers (gui (gui_run sched (init_world tts files))))%nat) /\
  (forall w n,
     g_is_running (gui w) = false -> timers (gui w) = S n ->
     timers (gui (gui_step Timer w)) = n /\
     trace (gui_step Timer w) = trace w).
Proof.
  split.
  - apply (session_inv_gui_run sched _ (session_inv_init tts files)).
  - intros w n Hrun Htm. cbn [gui_step]. rewrite Htm. unfold callback, bind.
    cbn [modify_gui fst snd]. rewrite update_gui_eq. cbn [snd].
    unfold rescheduled, displayed.
    destruct (frame_queue _) as [|item rest]; cbn; rewrite Hrun; cbn; auto.
Qed.

(** ** The current reading *)

Definition reading_of (w : world) : string * Q :=
  (current_emotion (sys w), current_confidence (sys w)).

(** The reading [r] is what the model answered on tick [t], the label not
    being the sentinel's. *)
Definition reported (t : tick) (r : string * Q) : Prop :=
  fst r <> "unknown" /\
  exists m, model_reading (t_model t) = Some (fst r, snd r, m).

Definition reading_is (r : string * Q) (w : world) : Prop := reading_of w = r.

Lemma reading_emit r e : preserves (reading_is r) (emit e).
Proof. intros w H. exact H. Qed.

Lemma reading_put_file r p c : preserves (reading_is r) (put_file p c).
Proof. intros w H. exact H. Qed.

Lemma reading_modify_gui r f : preserves (reading_is r) (modify_gui f).
Proof. intros w H. exact H. Qed.

Lemma reading_modify_sys r f :
  (forall s, current_emotion (f s) = current_emotion s /\
             current_confidence (f s) = current_confidence s) ->
  preserves (reading_is r) (modify_sys f).
Proof.
  intros Hf w H. unfold reading_is, reading_of, modify_sys in *. simpl.
  destruct (Hf (sys w)) as [-> ->]. exact H.
Qed.

#[local] Hint Resolve reading_emit reading_put_file reading_modify_gui : frame.
#[local] Hint Extern 1 (preserves (reading_is _) (print _)) =>
  apply reading_emit : frame.
#[local] Hint Extern 1 (preserves (reading_is _) (modify_sys _)) =>
  apply reading_modify_sys; intros ?; split; reflexivity : frame.

Lemma reading_log_emotion r e c a n1 n2 wr :
  preserves (reading_is r) (log_emotion e c a n1 n2 wr).
Proof. unfold log_emotion, json_load, py_append, json_dump. frame. Qed.

Lemma reading_notify r e c now : preserves (reading_is r) (notify e c now).
Proof. unfold notify, speak_emotion. frame. Qed.

#[local] Hint Resolve reading_log_emotion reading_notify : frame.

Lemma stored_reading d c m n1 n2 wr now w :
  reading_of
    (snd ((modify_sys (set_current d c);;;
           log_emotion d c m n1 n2 wr;;; notify d c now) w)) = (d, c).
Proof.
  unfold bind at 1. unfold modify_sys at 1.
  assert (preserves (reading_is (d, c))
            (log_emotion d c m n1 n2 wr;;; notify d c now)) as Hp by frame.
  apply Hp. reflexivity.
Qed.

(** The classification block, by what the model answered: a usable
    reading with a label other than "unknown" is stored, logged and
    announced; anything else only leaves its trace. *)
Lemma video_classify_cases t frame w :
  (exists tr, video_classify t frame w = (Ok tt, with_events w tr)) \/
  (exists d c m,
     model_reading (t_model t) = Some (d, c, m) /\ d <> "unknown" /\
     video_classify t frame w =
       (modify_sys (set_current d c);;;
        log_emotion d c m (t_now1 t) (t_now2 t) (t_write t);;;
        notify d c (t_time t)) (with_events w [Analyze frame])).
Proof.
  assert (forall r,
            detect_emotion frame (t_model t) w = (Ok r, with_events w [Analyze frame]) ->
            fst (fst r) = "unknown" ->
            video_classify t frame w = (Ok tt, with_events w [Analyze frame])) as Hskip.
  { intros [[e c] a] Hd He. simpl in He. subst e.
    unfold video_classify, bind. rewrite Hd. reflexivity. }
  destruct (model_reading (t_model t)) as [[[d c] m]|] eqn:Hm.
  - pose proof (detect_emotion_ok frame _ w _ Hm) as Hd.
    destruct (String.eqb_spec d "unknown") as [He|Hne].
    + left. eexists. apply (Hskip _ Hd He).
    + right. exists d, c, m. split; [reflexivity|]. split; [exact Hne|].
      unfold video_classify. unfold bind at 1. rewrite Hd.
      destruct (String.eqb_spec d "unknown"); [contradiction|reflexivity].
  - destruct (detect_emotion_fail frame _ w Hm) as [msg Hd].
    left. eexists. unfold video_classify, bind. rewrite Hd. reflexivity.
Qed.

(** The classification block either leaves the reading or stores what the
    model reported on this tick. *)
Lemma video_classify_reading t frame w :
  reading_of (snd (video_classify t frame w)) = reading_of w \/
  reported t (reading_of (snd (video_classify t frame w))).
Proof.
  destruct (video_classify_cases t frame w)
    as [[tr ->]|(d & c & m & Hm & Hne & ->)].
  - left. reflexivity.
  - right. rewrite stored_reading. split; [exact Hne | exists m; exact Hm].
Qed.

Lemma video_tick_no_cap t n w :
  cap (sys w) = None ->
  video_tick t n w =
    (Raise (AttributeError "'NoneType' object has no attribute 'read'"), w).
Proof.
  intros Hcap. unfold video_tick, cap_read, bind, get_sys, raise.
  now rewrite Hcap.
Qed.

(** The three ways a pass of [process_video] can go. *)
Lemma video_tick_cases t n w :
  (exists r tr, video_tick t n w = (r, with_events w tr)) \/
  (exists frame,
     cap (sys w) = Some {| opened := true |} /\ t_read t = Some frame).
Proof.
  destruct (cap (sys w)) as [[[|]]|] eqn:Hcap.
  - destruct (t_read t) as [frame|] eqn:Hread.
    + right. eauto.
    + left. eexists _, _.
      apply (video_tick_no_frame t n w _ Hcap (or_intror Hread)).
  - left. eexists _, _.
    apply (video_tick_no_frame t n w _ Hcap (or_introl eq_refl)).
  - left. exists (Raise (AttributeError "'NoneType' object has no attribute 'read'")), [].
    rewrite (video_tick_no_cap t n w Hcap). unfold with_events.
    rewrite app_nil_r. now destruct w.
Qed.

Lemma video_tick_reading t n w :
  reading_of (snd (video_tick t n w)) = reading_of w \/
  reported t (reading_of (snd (video_tick t n w))).
Proof.
  destruct (video_tick_cases t n w) as [(r & tr & ->)|(frame & Hcap & Hread)];
    [left; reflexivity|].
  rewrite (video_tick_frame t n frame w Hcap Hread).
  destruct (Nat.eqb (S n mod 3) 0); [|left; reflexivity].
  pose proof (video_classify_reading t (Flip frame) (frame_taken (Flip frame) w))
    as H.
  destruct (video_classify t (Flip frame) (frame_taken (Flip frame) w))
    as [[[]|e] w2]; exact H.
Qed.

Lemma reading_start_camera r ok : preserves (reading_is r) (start_camera ok).
Proof. unfold start_camera, initialize_camera, update_gui. frame. Qed.

Lemma reading_stop_camera r : preserves (reading_is r) stop_camera.
Proof. unfold stop_camera, cleanup. frame. Qed.

Lemma reading_toggle_voice r : preserves (reading_is r) toggle_voice.
Proof. unfold toggle_voice. frame. Qed.

Lemma reading_take_screenshot r now :
  preserves (reading_is r) (take_screenshot now).
Proof. unfold take_screenshot. frame. Qed.

Lemma reading_update_gui r : preserves (reading_is r) update_gui.
Proof. unfold update_gui. frame. Qed.

Lemma reading_gui_step a w :
  reading_of (gui_step a w) = reading_of w \/
  exists tid t, a = Bg tid t /\ reported t (reading_of (gui_step a w)).
Proof.
  destruct a as [cam_ok| | |now| |tid t]; cbn [gui_step]; unfold callback.
  - left. destruct (start_button _); [|reflexivity].
    now apply (reading_start_camera (reading_of w)).
  - left. destruct (stop_button _); [|reflexivity].
    now apply (reading_stop_camera (reading_of w)).
  - left. now apply (reading_toggle_voice (reading_of w)).
  - left. now apply (reading_take_screenshot (reading_of w)).
  - left. destruct (timers _) as [|n]; [reflexivity|].
    unfold bind, modify_gui. cbn [fst snd].
    now apply (reading_update_gui (reading_of w)).
  - unfold bg_step. destruct (_ !! _) as [th|]; [|left; reflexivity].
    destruct (th_pc th); [left; reflexivity| |left; reflexivity].
    pose proof (video_tick_reading t (th_count th) w) as H.
    destruct (video_tick _ _ _) as [[[[|] n]|e] w']; cbn [snd] in *;
      (destruct H as [H|H]; [left; exact H | right; eauto]).
Qed.

Lemma reading_gui_run sched : forall w,
  reading_of (gui_run sched w) = reading_of w \/
  exists tid t, In (Bg tid t) sched /\ reported t (reading_of (gui_run sched w)).
Proof.
  induction sched as [|a sched IH]; intros w; [left; reflexivity|].
  change (gui_run (a :: sched) w) with (gui_run sched (gui_step a w)).
  destruct (IH (gui_step a w)) as [Heq|(tid & t & Hin & Hrep)].
  - rewrite Heq. destruct (reading_gui_step a w) as [H|(tid & t & -> & H)].
    + left. exact H.
    + right. exists tid, t. split; [now left | exact H].
  - right. exists tid, t. split; [now right | exact Hrep].
Qed.

(** X6.  On every schedule of the GUI the current reading is either the
    initial one, ("Unknown", 0.0), or a reading the model reported on one
    of the schedule's ticks with a label other than "unknown".  So the
    sentinel label is never the current one, and if the model's
    confidences lie in [0, 100] so does the current confidence. *)
Theorem current_reading_provenance
  (tts : bool) (files : gmap string file) (sched : list action) :
  (reading_of (gui_run sched (init_world tts files)) = ("Unknown", 0%Q) \/
   exists tid t,
     In (Bg tid t) sched /\
     reported t (reading_of (gui_run sched (init_world tts files)))) /\
  current_emotion (sys (gui_run sched (init_world tts files))) <> "unknown" /\
  ((forall tid t d c m,
      In (Bg tid t) sched -> model_reading (t_model t) = Some (d, c, m) ->
      (0 <= c <= 100)%Q) ->
   (0 <= current_confidence (sys (gui_run sched (init_world tts files))) <= 100)%Q).
Proof.
  pose proof (reading_gui_run sched (init_world tts files)) as H.
  change (reading_of (init_world tts files)) with ("Unknown", 0%Q) in H.
  split; [exact H|]. split.
  - destruct H as [H|(tid & t & _ & Hne & _)]; [|exact Hne].
    apply (f_equal fst) in H. cbn in H. rewrite H. discriminate.
  - intros Hrange. destruct H as [H|(tid & t & Hin & _ & m & Hm)].
    + apply (f_equal snd) in H. cbn in H. rewrite H. split; discriminate.
    + exact (Hrange tid t _ _ m Hin Hm).
Qed.

(** ** A classified tick *)

Lemma video_classify_ok t frame d c m w :
  model_reading (t_model t) = Some (d, c, m) -> d <> "unknown" ->
  video_classify t frame w =
    (modify_sys (set_current d c);;;
     log_emotion d c m (t_now1 t) (t_now2 t) (t_write t);;;
     notify d c (t_time t)) (with_events w [Analyze frame]).
Proof.
  intros Hm Hne. unfold video_classify. unfold bind at 1.
  rewrite (detect_emotion_ok frame _ w _ Hm).
  destruct (String.eqb_spec d "unknown"); [contradiction|reflexivity].
Qed.

(** X7.  A pass of [process_video] on which the frame counter reaches a
    multiple of 3 and the model reports a reading (label not "unknown"):
    the pass does not raise; in this order the frame is read, the
    classifier is called, the reading becomes the current one, the log is
    dealt with, the speech thread is started exactly when [voice_due] holds
    of the state before the pass, and the flipped frame is queued together
    with the new reading; the raw flipped frame is kept as [current_frame].
    The log ends in one of four ways: the day's file is not a JSON array,
    then one error line is printed and the files are untouched; the array
    with the new record is written; the file cannot be opened for writing,
    then one error line is printed and the files are untouched; or the
    write breaks off half-way, then the day's file holds the cut-off text,
    the records it had are lost, and one error line is printed. *)
Theorem classified_tick_effects t n frame d c m w :
  cap (sys w) = Some {| opened := true |} ->
  t_read t = Some frame ->
  S n mod 3 = 0%nat ->
  model_reading (t_model t) = Some (d, c, m) ->
  d <> "unknown" ->
  exists w' logging,
    video_tick t n w = (Ok (Continue, S n), w') /\
    reading_of w' = (d, c) /\
    trace w' =
      trace w ++ [CamRead true; Analyze (Flip frame)] ++ logging ++
      (if voice_due c (t_time t) (sys w)
       then [SpeakThread d c (t_time t)] else []) /\
    (let path := log_path (strftime_Ymd (t_now2 t)) in
     match appended (fs w !! path) (log_entry (isoformat (t_now1 t)) d c m) with
     | None => (exists msg, logging = [Printed msg]) /\ fs w' = fs w
     | Some doc =>
         match t_write t with
         | Written =>
             logging = [WriteFile path (JsonDoc (Some 2) doc)] /\
             fs w' = <[path := JsonDoc (Some 2) doc]> (fs w)
         | OpenFails _ =>
             (exists msg, logging = [Printed msg]) /\ fs w' = fs w
         | DumpFails partial _ =>
             (exists msg,
                logging = [WriteFile path (Garbage partial); Printed msg]) /\
             fs w' = <[path := Garbage partial]> (fs w)
         end
     end) /\
    last_voice_time (sys w') =
      (if voice_due c (t_time t) (sys w) then t_time t
       else last_voice_time (sys w)) /\
    frame_queue (gui w') =
      frame_queue (gui w) ++ [(PhotoImage (Flip frame), d, c)] /\
    current_frame (gui w') = Some (Flip frame).
Proof.
  intros Hcap Hread Hmod Hm Hne.
  rewrite (video_tick_frame t n frame w Hcap Hread), Hmod. cbn [Nat.eqb].
  rewrite (video_classify_ok t (Flip frame) d c m _ Hm Hne).
  unfold bind at 1. unfold modify_sys at 1. cbn [fst snd].
  unfold bind at 1.
  match goal with |- context [log_emotion d c m ?n1 ?n2 ?wr ?w0] =>
    destruct (log_emotion_eq d c m n1 n2 wr w0) as [msg ->] end.
  rewrite notify_eq.
  cbn [with_events frame_taken sys gui fs trace].
  assert (forall s, voice_due c (t_time t) (set_current d c s)
                    = voice_due c (t_time t) s) as Hdue by reflexivity.
  cbv zeta.
  destruct (appended _ _) as [doc|]; [destruct (t_write t)|];
    cbn [written_back with_events sys gui fs trace];
    rewrite Hdue; destruct (voice_due c (t_time t) (sys w));
    eexists _, _; (split; [reflexivity|]);
    cbn [published reading_of sys gui fs trace set_frame_queue
         set_current_frame frame_queue current_frame set_last_voice_time
         set_current current_emotion current_confidence last_voice_time];
    (split; [reflexivity|]);
    (split;
     [|split;
       [first [split; [reflexivity|reflexivity]
              |split; [exists msg; reflexivity|reflexivity]]
       |repeat split]]);
    cbn [with_events sys gui fs trace]; rewrite <- ?app_assoc; cbn [app];
    reflexivity.
Qed.

(** A first reading of the day is logged; on the next one the write breaks
    off, and the day's file is left with the cut-off text. *)
Lemma classified_tick_effects_witness :
  exists w1 w2 msg,
    video_tick (sample_tick 3 (Faces [sample_face]) 100) 2
      (snd (start_camera true (init_world true ∅)))
      = (Ok (Continue, 3%nat), w1) /\
    reading_of w1 = ("happy", 82.3%Q) /\
    stored (fs w1 !! "logs/emotion_log_20240307.json")
      = Some [log_entry "2024-03-07T00:00:00" "happy" 82.3 sample_scores] /\
    fired (trace w1) = [100%Q] /\
    frame_queue (gui w1) = [(PhotoImage (Flip (Captured 3)), "happy", 82.3%Q)] /\
    video_tick
      {| t_read := Some (Captured 6); t_model := Faces [sample_face];
         t_time := 101; t_now1 := sample_day; t_now2 := sample_day;
         t_write := DumpFails "[" "Object of type float32 is not JSON serializable";
         t_key := (-1)%Z |} 5 w1
      = (Ok (Continue, 6%nat), w2) /\
    fs w2 !! "logs/emotion_log_20240307.json" = Some (Garbage "[") /\
    trace w2 = trace w1 ++
      [CamRead true; Analyze (Flip (Captured 6));
       WriteFile "logs/emotion_log_20240307.json" (Garbage "["); Printed msg].
Proof.
  destruct (classified_tick_effects (sample_tick 3 (Faces [sample_face]) 100) 2
              (Captured 3) "happy" 82.3%Q sample_scores
              (snd (start_camera true (init_world true ∅))))
    as (w1 & logging1 & Heq1 & Hr1 & Htr1 & Hlog1 & _ & Hq1 & _);
    try reflexivity; try discriminate.
  cbv zeta in Hlog1. cbn [sample_tick t_write t_now1 t_now2] in Hlog1.
  change (appended _ _) with
    (Some (JArr [log_entry "2024-03-07T00:00:00" "happy" 82.3 sample_scores]))
    in Hlog1.
  destruct Hlog1 as [-> Hfs1].
  assert (cap (sys w1) = Some {| opened := true |}) as Hcap1.
  { apply (f_equal snd) in Heq1. cbn [snd] in Heq1. now rewrite <- Heq1. }
  destruct (classified_tick_effects
              {| t_read := Some (Captured 6); t_model := Faces [sample_face];
                 t_time := 101; t_now1 := sample_day; t_now2 := sample_day;
                 t_write := DumpFails "[" "Object of type float32 is not JSON serializable";
                 t_key := (-1)%Z |} 5
              (Captured 6) "happy" 82.3%Q sample_scores w1)
    as (w2 & logging2 & Heq2 & _ & Htr2 & Hlog2 & _);
    try reflexivity; try discriminate; try exact Hcap1.
  cbv zeta in Hlog2. cbn [t_write t_now1 t_now2] in Hlog2.
  rewrite Hfs1 in Hlog2.
  change (log_path (strftime_Ymd sample_day))
    with "logs/emotion_log_20240307.json" in *.
  rewrite lookup_insert_eq in Hlog2.
  change (appended _ _) with
    (Some (JArr [log_entry "2024-03-07T00:00:00" "happy" 82.3 sample_scores;
                 log_entry "2024-03-07T00:00:00" "happy" 82.3 sample_scores]))
    in Hlog2.
  destruct Hlog2 as [[msg ->] Hfs2].
  exists w1, w2, msg.
  repeat match goal with |- _ /\ _ => split end.
  - exact Heq1.
  - exact Hr1.
  - rewrite Hfs1, lookup_insert_eq. reflexivity.
  - rewrite Htr1. reflexivity.
  - exact Hq1.
  - exact Heq2.
  - rewrite Hfs2, lookup_insert_eq. reflexivity.
  - rewrite Htr2. cbn [t_time].
    assert (voice_due 82.3 101 (sys w1) = false) as ->.
    { apply (f_equal snd) in Heq1. cbn [snd] in Heq1. rewrite <- Heq1.
      vm_compute. reflexivity. }
    reflexivity.
Defined.

(** ** Screenshots of a running session *)

(** X8.  After a pass of [process_video] that read a frame, whether or not
    the pass classified it, the screenshot command saves that frame,
    mirrored and without any overlay, as gui_screenshot_<YYYYMMDD_HHMMSS>.jpg
    and then shows the dialog naming the file; it changes nothing else. *)
Theorem screenshot_saves_last_raw_frame t n frame now w :
  cap (sys w) = Some {| opened := true |} ->
  t_read t = Some frame ->
  take_screenshot now (snd (video_tick t n w)) =
    (Ok tt,
     with_events (snd (video_tick t n w))
       [ImWrite ("gui_screenshot_" +:+ strftime_Ymd_HMS now +:+ ".jpg") (Flip frame);
        ShowInfo "Screenshot"
          ("Screenshot saved as " +:+
           ("gui_screenshot_" +:+ strftime_Ymd_HMS now +:+ ".jpg"))]).
Proof.
  intros Hcap Hread.
  assert (current_frame (gui (snd (video_tick t n w))) = Some (Flip frame)) as Hcf.
  { rewrite (video_tick_frame t n frame w Hcap Hread).
    destruct (Nat.eqb (S n mod 3) 0); [|reflexivity].
    destruct (video_classify_once t (Flip frame) (frame_taken (Flip frame) w))
      as (w' & -> & _ & Hgui & _).
    cbn [snd published gui set_frame_queue current_frame]. now rewrite Hgui. }
  generalize dependent (snd (video_tick t n w)). intros w' Hcf.
  unfold take_screenshot, bind, get_gui, emit, with_events. rewrite Hcf.
  cbn [sys gui fs trace]. now rewrite <- app_assoc.
Qed.

Lemma screenshot_saves_last_raw_frame_witness :
  trace (snd (take_screenshot sample_day
                (snd (video_tick (sample_tick 3 (Faces [sample_face]) 100) 2
                        (snd (start_camera true (init_world true ∅))))))) =
  trace (snd (video_tick (sample_tick 3 (Faces [sample_face]) 100) 2
                (snd (start_camera true (init_world true ∅))))) ++
  [ImWrite "gui_screenshot_20240307_000000.jpg" (Flip (Captured 3));
   ShowInfo "Screenshot" "Screenshot saved as gui_screenshot_20240307_000000.jpg"].
Proof.
  rewrite (screenshot_saves_last_raw_frame
             (sample_tick 3 (Faces [sample_face]) 100) 2 (Captured 3) sample_day
             (snd (start_camera true (init_world true ∅))) eq_refl eq_refl).
  reflexivity.
Defined.

(** ** Restarting *)

(** X9.  Stop followed by Start, with a video thread of the stopped session
    still standing at the top of its loop (it has not tested the flag in
    between): the session runs again with a fresh thread added after the
    old ones, the old thread is still there, and at its next step it finds
    the flag set and goes on to read, so two threads run [process_video]
    on the one camera. *)
Theorem restart_revives_waiting_thread w c tid n :
  stop_button (gui w) = true ->
  cap (sys w) = Some c ->
  threads (gui w) !! tid = Some {| th_pc := AtWhile; th_count := n |} ->
  g_is_running (gui (gui_run [Stop; Start true] w)) = true /\
  cap (sys (gui_run [Stop; Start true] w)) = Some {| opened := true |} /\
  threads (gui (gui_run [Stop; Start true] w)) =
    threads (gui w) ++ [{| th_pc := AtWhile; th_count := 0 |}] /\
  (forall t,
     threads (gui (gui_step (Bg tid t) (gui_run [Stop; Start true] w))) !! tid
       = Some {| th_pc := Reading; th_count := n |}) /\
  (forall t,
     threads (gui (gui_step (Bg (length (threads (gui w))) t)
                     (gui_run [Stop; Start true] w)))
       !! length (threads (gui w))
       = Some {| th_pc := Reading; th_count := 0 |}).
Proof.
  intros Hsb Hcap Hth.
  assert (tid < length (threads (gui w)))%nat as Hlen
    by (eapply lookup_lt_Some; eauto).
  unfold gui_run. cbn [fold_left gui_step]. rewrite Hsb. unfold callback.
  rewrite (stop_camera_eq w c Hcap). cbn [snd gui start_button set_video_label
    set_buttons].
  rewrite start_camera_ok_eq, update_gui_eq. cbn [snd].
  set (w1 := started _).
  assert (g_is_running (gui w1) = true) as Hrun by reflexivity.
  assert (threads (gui w1) =
            threads (gui w) ++ [{| th_pc := AtWhile; th_count := 0 |}]) as Hths
    by reflexivity.
  assert (cap (sys w1) = Some {| opened := true |}) as Hcap1 by reflexivity.
  set (w2 := match frame_queue (gui w1) with
             | [] => rescheduled w1
             | item :: rest => rescheduled (displayed item rest w1)
             end).
  assert (g_is_running (gui w2) = true /\ threads (gui w2) = threads (gui w1) /\
          cap (sys w2) = cap (sys w1)) as (Hrun2 & Hths2 & Hcap2).
  { subst w2. unfold rescheduled, displayed.
    destruct (frame_queue (gui w1)); cbn [gui g_is_running set_info_labels
      set_video_label set_frame_queue]; rewrite Hrun; cbn; auto. }
  clearbody w2 w1. rewrite Hths in Hths2.
  repeat match goal with |- _ /\ _ => split end.
  - exact Hrun2.
  - congruence.
  - exact Hths2.
  - intros t.
    rewrite (bg_step_test tid n t w2) by
      (rewrite Hths2; now apply lookup_app_l_Some).
    rewrite Hrun2. cbn. apply list_lookup_insert_eq.
    rewrite Hths2, length_app. lia.
  - intros t.
    rewrite (bg_step_test (length (threads (gui w))) 0 t w2) by
      (rewrite Hths2; now apply list_lookup_middle).
    rewrite Hrun2. cbn. apply list_lookup_insert_eq.
    rewrite Hths2, length_app. simpl. lia.
Qed.

Lemma restart_revives_waiting_thread_witness :
  threads (gui (gui_run [Start true; Stop; Start true;
                         Bg 0 (sample_tick 1 (Raises "") 0);
                         Bg 1 (sample_tick 1 (Raises "") 0)]
                  (init_world true ∅))) =
  [{| th_pc := Reading; th_count := 0 |}; {| th_pc := Reading; th_count := 0 |}]
  /\
  threads (gui (gui_run [Stop; Start true]
                  (gui_run [Start true] (init_world true ∅)))) =
  [{| th_pc := AtWhile; th_count := 0 |}; {| th_pc := AtWhile; th_count := 0 |}].
Proof.
  destruct (restart_revives_waiting_thread
              (gui_run [Start true] (init_world true ∅))
              {| opened := true |} 0 0 eq_refl eq_refl eq_refl)
    as (_ & _ & Hths & _).
  split; [reflexivity | exact Hths].
Defined.

(** ** Console mode, whole runs *)

(** The frames handed to [cv2.imshow]. *)
Fixpoint shown (tr : list event) : list image :=
  match tr with
  | [] => []
  | ImShow _ f :: tr' => f :: shown tr'
  | _ :: tr' => shown tr'
  end.

Lemma shown_app tr1 tr2 : shown (tr1 ++ tr2) = shown tr1 ++ shown tr2.
Proof.
  induction tr1 as [|e tr1 IH]; simpl; [reflexivity|].
  destruct e; simpl; rewrite ?IH; reflexivity.
Qed.

(** The world once [run_console_mode] has opened the camera, printed its
    banner and set the flag. *)
Definition console_started (w : world) : world :=
  {| sys := set_is_running true (set_cap (Some {| opened := true |}) (sys w));
     gui := gui w; fs := fs w;
     trace := trace w ++
       [CamOpen true;
        CamSet "CAP_PROP_FRAME_WIDTH" 640; CamSet "CAP_PROP_FRAME_HEIGHT" 480;
        Printed "🎭 Real-Time Emotion Recognition System Started!";
        Printed "Press 'q' to quit, 'v' to toggle voice, 's' to save screenshot";
        Printed "--------------------------------------------------"] |}.

Lemma run_console_mode_started ticks w :
  run_console_mode true ticks w =
    match console_loop ticks {| frame_count := 0; all_emotions := None |}
            (console_started w) with
    | (Ok StillRunning, w') => (Ok Running, w')
    | (Ok Exited, w') => (cleanup;;; ret Stopped) w'
    | (Raise e, w') => (Raise e, w')
    end.
Proof.
  destruct w as [s g f tr].
  unfold run_console_mode, initialize_camera, try_except. unfold bind at 1.
  cbv beta iota zeta delta [bind modify_sys emit print ret negb
    sys gui fs trace].
  unfold console_started. cbn [sys gui fs trace]. rewrite <- !app_assoc.
  cbn [app].
  destruct (console_loop ticks _ _) as [[[|]|e] w']; reflexivity.
Qed.

(** How a run of console mode ends, read off the camera and the first
    tick alone. *)
Definition console_outcome (cam_ok : bool) (ticks : list tick)
  : result run_end :=
  if cam_ok then
    match ticks with
    | [] => Ok Running
    | t :: _ =>
        match t_read t with
        | None => Ok Stopped
        | Some _ => Raise (UnboundLocalError "all_emotions")
        end
    end
  else Ok NotStarted.

(** X10.  Every run of [run_console_mode], on any camera, frames, model
    answers and keys: it ends as [console_outcome] says (camera refused;
    first read failed, then cleaned up; otherwise UnboundLocalError on the
    first frame), and it has never called the classifier, written or
    changed a file, started a speech thread, shown a frame, changed the
    current reading or saved a screenshot.  The later ticks are never
    looked at. *)
Theorem console_mode_processes_nothing
  (cam_ok : bool) (ticks : list tick) (w : world) :
  fst (run_console_mode cam_ok ticks w) = console_outcome cam_ok ticks /\
  fs (snd (run_console_mode cam_ok ticks w)) = fs w /\
  gui (snd (run_console_mode cam_ok ticks w)) = gui w /\
  reading_of (snd (run_console_mode cam_ok ticks w)) = reading_of w /\
  analyses (trace (snd (run_console_mode cam_ok ticks w))) = analyses (trace w) /\
  fired (trace (snd (run_console_mode cam_ok ticks w))) = fired (trace w) /\
  shown (trace (snd (run_console_mode cam_ok ticks w))) = shown (trace w) /\
  (forall p f, In (ImWrite p f) (trace (snd (run_console_mode cam_ok ticks w))) ->
               In (ImWrite p f) (trace w)).
Proof.
  assert (forall tr, (forall p f, ~ In (ImWrite p f) tr) ->
            forall p f, In (ImWrite p f) (trace w ++ tr) -> In (ImWrite p f) (trace w))
    as Hin.
  { intros tr Hno p f H. apply in_app_or in H as [H|H]; [exact H|].
    now apply Hno in H. }
  pose proof (shown_app (trace w)) as Hshown.
  destruct cam_ok.
  - destruct ticks as [|t ts].
    + rewrite run_console_mode_started. cbn [console_loop].
      unfold bind, get_sys, ret. cbn.
      rewrite analyses_app, fired_app, Hshown, !app_nil_r, !Nat.add_0_r.
      repeat match goal with |- _ /\ _ => split end; auto.
      apply Hin. intros p f H. cbn in H.
      repeat (destruct H as [H|H]; [discriminate H|]). exact H.
    + destruct (t_read t) as [frame|] eqn:Hread.
      * rewrite run_console_mode_started.
        rewrite (console_loop_first_frame t ts frame (console_started w)
                   eq_refl eq_refl Hread).
        cbn [fst snd console_outcome]. rewrite Hread. cbn.
        rewrite <- app_assoc.
        rewrite analyses_app, fired_app, Hshown. cbn.
        rewrite !app_nil_r, !Nat.add_0_r.
        repeat match goal with |- _ /\ _ => split end; auto.
        apply Hin. intros p f H. cbn in H.
        repeat (destruct H as [H|H]; [discriminate H|]). exact H.
      * rewrite (console_frame_failure_cleans_up t ts w Hread).
        cbn [fst snd console_outcome]. rewrite Hread. cbn.
        rewrite analyses_app, fired_app, Hshown. cbn.
        rewrite !app_nil_r, !Nat.add_0_r.
        repeat match goal with |- _ /\ _ => split end; auto.
        apply Hin. intros p f H. cbn in H.
        repeat (destruct H as [H|H]; [discriminate H|]). exact H.
  - unfold run_console_mode, bind. rewrite initialize_camera_refused.
    cbn. rewrite analyses_app, fired_app, Hshown. cbn.
    rewrite !app_nil_r, !Nat.add_0_r.
    repeat match goal with |- _ /\ _ => split end; auto.
    apply Hin. intros p f H. cbn in H.
    repeat (destruct H as [H|H]; [discriminate H|]). exact H.
Qed.

(** ** The entry point *)

(** [str.isspace()] on ASCII characters. *)
Definition is_space (c : ascii) : bool :=
  let n := nat_of_ascii c in
  (Nat.leb 9 n && Nat.leb n 13) || (Nat.leb 28 n && Nat.leb n 32).

Fixpoint lstrip (s : string) : string :=
  match s with
  | EmptyString => EmptyString
  | String c s' => if is_space c then lstrip s' else s
  end.

Fixpoint rstrip (s : string) : string :=
  match s with
  | EmptyString => EmptyString
  | String c s' =>
      match rstrip s' with
      | EmptyString => if is_space c then EmptyString else String c EmptyString
      | r => String c r
      end
  end.

(** [str.strip()], for ASCII input. *)
Definition strip (s : string) : string := rstrip (lstrip s).

(** [EmotionRecognitionSystem()] *)
Definition construct_system (tts : bool) : M unit :=
  modify_sys (fun _ => init_system tts);;;
  if tts then ret tt else print "Warning: Text-to-speech not available".

(** [EmotionGUI()] *)
Definition construct_gui (tts : bool) : M unit :=
  construct_system tts;;;
  modify_gui (fun _ => init_gui).

(** [app.run()]: the Tk main loop works through what happens. *)
Definition mainloop (sched : list action) : M unit :=
  fun w => (Ok tt, gui_run sched w).

(** [main]; [line] is what [input] returns, None when it raises EOFError.
    An interrupt from the keyboard is not part of the environment here, so
    the [except KeyboardInterrupt] branch is never taken. *)
Definition main (line : option string) (tts cam_ok : bool)
  (ticks : list tick) (sched : list action) : M unit :=
  print "🎭 Real-Time Emotion Recognition System";;;
  print "==================================================";;;
  print "Choose mode:";;;
  print "1. Console Mode (OpenCV window)";;;
  print "2. GUI Mode (Tkinter interface)";;;
  try_except
    (choice <- match line with
               | Some l => ret (strip l)
               | None => raise (Exception "EOF when reading a line")
               end;;
     if String.eqb choice "1" then
       construct_system tts;;;
       run_console_mode cam_ok ticks;;;
       ret tt
     else if String.eqb choice "2" then
       construct_gui tts;;;
       mainloop sched
     else
       print "Invalid choice. Running console mode...";;;
       construct_system tts;;;
       run_console_mode cam_ok ticks;;;
       ret tt)
    (fun e => print ("Error: " +:+ exn_str e)).

Definition all_space (s : string) : Prop := lstrip s = EmptyString.

Lemma lstrip_app_space pre s : all_space pre -> lstrip (pre +:+ s) = lstrip s.
Proof.
  unfold all_space. induction pre as [|c pre IH]; simpl; [reflexivity|].
  destruct (is_space c); [exact IH | discriminate].
Qed.

Lemma rstrip_space post : all_space post -> rstrip post = EmptyString.
Proof.
  unfold all_space. induction post as [|c post IH]; simpl; [reflexivity|].
  destruct (is_space c); [|discriminate].
  intros H. now rewrite (IH H).
Qed.

Lemma rstrip_app_space s post :
  all_space post -> rstrip (s +:+ post) = rstrip s.
Proof.
  intros Hp. induction s as [|c s IH].
  - now apply rstrip_space.
  - change (String c s +:+ post) with (String c (s +:+ post)).
    cbn [rstrip]. now rewrite IH.
Qed.

Lemma lstrip_app s post :
  lstrip (s +:+ post) =
    match lstrip s with
    | EmptyString => lstrip post
    | r => r +:+ post
    end.
Proof.
  induction s as [|c s IH].
  - reflexivity.
  - change (String c s +:+ post) with (String c (s +:+ post)).
    cbn [lstrip]. destruct (is_space c); [exact IH | reflexivity].
Qed.

Lemma strip_padded pre s post :
  all_space pre -> all_space post -> strip (pre +:+ s +:+ post) = strip s.
Proof.
  intros Hpre Hpost. unfold strip.
  rewrite (lstrip_app_space pre _ Hpre), lstrip_app.
  destruct (lstrip s) as [|c r] eqn:Hs.
  - rewrite Hpost. reflexivity.
  - now rewrite (rstrip_app_space (String c r) post Hpost).
Qed.

(** X11.  [main] reads the choice through [strip]: white space before and
    after what was typed changes nothing of the run. *)
Theorem main_ignores_padding
  (pre l post : string) (tts cam_ok : bool) (ticks : list tick)
  (sched : list action) (w : world) :
  all_space pre -> all_space post ->
  main (Some (pre +:+ l +:+ post)) tts cam_ok ticks sched w =
  main (Some l) tts cam_ok ticks sched w.
Proof.
  intros Hpre Hpost. unfold main. now rewrite (strip_padded pre l post Hpre Hpost).
Qed.

Lemma main_ignores_padding_witness :
  main (Some ("  " +:+ "2" +:+ String (ascii_of_nat 10) "")) true true []
    [Start true] (init_world true ∅) =
  main (Some "2") true true [] [Start true] (init_world true ∅).
Proof.
  apply (main_ignores_padding "  " "2" (String (ascii_of_nat 10) "")
           true true [] [Start true] (init_world true ∅)); reflexivity.
Defined.











(** ** The video loop never dies of an exception *)

(** X13.  With a camera handle in place, a pass of [process_video] never
    raises, whatever the model and the log file do, and it leaves the loop
    exactly when the read delivers no frame (the handle is closed or the
    camera fails); so [process_video] as a whole never raises. *)
Theorem video_loop_never_raises (w : world) (c : camera) :
  cap (sys w) = Some c ->
  (forall t n,
     exists ctl w',
       video_tick t n w = (Ok ctl, w') /\
       (fst ctl = Break <-> opened c = false \/ t_read t = None)) /\
  (forall ticks n, exists e w', process_video ticks n w = (Ok e, w')).
Proof.
  intros Hcap.
  assert (forall w0 t n, cap (sys w0) = Some c ->
            exists ctl w',
              video_tick t n w0 = (Ok ctl, w') /\
              (fst ctl = Break <-> opened c = false \/ t_read t = None)) as Htick.
  { clear w Hcap. intros w t n Hcap.
    destruct c as [[|]]; [destruct (t_read t) as [frame|] eqn:Hread|].
    - destruct (video_tick_decimation t n frame w Hcap Hread) as (w' & -> & _).
      eexists _, _. split; [reflexivity|]. cbn. split; [discriminate|].
      intros [H|H]; discriminate.
    - rewrite (video_tick_no_frame t n w _ Hcap (or_intror Hread)).
      eexists _, _. split; [reflexivity|]. cbn. tauto.
    - rewrite (video_tick_no_frame t n w _ Hcap (or_introl eq_refl)).
      eexists _, _. split; [reflexivity|]. cbn. tauto. }
  split; [intros t n; now apply Htick|].
  intros ticks. revert w Hcap.
  induction ticks as [|t ts IH]; intros w Hcap n; cbn [process_video];
    unfold bind at 1; unfold get_gui; cbn [fst snd].
  - destruct (negb _); eexists _, _; reflexivity.
  - destruct (negb _); [eexists _, _; reflexivity|].
    destruct (Htick w t n Hcap) as ([[|] n'] & w' & Heq & _);
      unfold bind; rewrite Heq; cbn [fst snd].
    + apply IH.
      pose proof (controls_video_tick (controls w) t n w eq_refl) as Hk.
      rewrite Heq in Hk. cbn [snd] in Hk. unfold controls_are, controls in Hk.
      injection Hk as Hk _. congruence.
    + eexists _, _. reflexivity.
Qed.

Lemma video_loop_never_raises_witness :
  exists e w',
    process_video
      [sample_tick 1 (Raises "no face") 0; sample_tick 2 (Faces []) 1;
       sample_tick 3 (Face {| f_dominant := None; f_emotion := None |}) 2;
       sample_failing_tick]
      0 (snd (start_camera true (init_world true sample_broken_files)))
    = (Ok e, w').
Proof.
  destruct (video_loop_never_raises
              (snd (start_camera true (init_world true sample_broken_files)))
              {| opened := true |} eq_refl) as [_ H].
  apply H.
Defined.

(** A step that is not the Toggle Voice button. *)
Definition no_toggle (a : action) : Prop :=
  match a with ToggleVoice => False | _ => True end.

(** ** Silence *)

(** A condition on the system object under which [speak_emotion] returns
    at once, and which the loops' own assignments keep. *)
Section Mute.
Variable off : system -> Prop.
Hypothesis off_mutes :
  forall s, off s -> negb (tts_engine s) || negb (voice_enabled s) = true.
Hypothesis off_set_cap : forall c s, off s -> off (set_cap c s).
Hypothesis off_set_is_running : forall b s, off s -> off (set_is_running b s).
Hypothesis off_set_current : forall e c s, off s -> off (set_current e c s).

Definition mute (l : list Q) (w : world) : Prop :=
  fired (trace w) = l /\ off (sys w).

Lemma mute_emit l e : quiet e -> preserves (mute l) (emit e).
Proof.
  intros He w [Hf Hs]. split; [|exact Hs]. unfold emit. cbn [snd trace].
  rewrite fired_app.
  replace (fired [e]) with (@nil Q) by
    (destruct e; simpl in *; first [reflexivity | contradiction]).
  now rewrite app_nil_r.
Qed.

Lemma mute_put_file l p c : preserves (mute l) (put_file p c).
Proof.
  intros w [Hf Hs]. split; [|exact Hs]. unfold put_file. cbn [snd trace].
  rewrite fired_app. simpl. now rewrite app_nil_r.
Qed.

Lemma mute_modify_gui l f : preserves (mute l) (modify_gui f).
Proof. intros w H. exact H. Qed.

Lemma mute_modify_sys l f :
  (forall s, off s -> off (f s)) -> preserves (mute l) (modify_sys f).
Proof. intros Hf w [Hl Hs]. split; [exact Hl|]. now apply Hf. Qed.

Lemma mute_speak l e c now : preserves (mute l) (speak_emotion e c now).
Proof.
  intros w [Hl Hs]. unfold speak_emotion, bind, get_sys.
  rewrite (off_mutes _ Hs). split; assumption.
Qed.

#[local] Hint Resolve mute_put_file mute_modify_gui mute_speak : frame.
#[local] Hint Extern 1 (preserves (mute _) (emit _)) =>
  apply mute_emit; exact I : frame.
#[local] Hint Extern 1 (preserves (mute _) (print _)) =>
  apply mute_emit; exact I : frame.
#[local] Hint Extern 1 (preserves (mute _) (modify_sys _)) =>
  apply mute_modify_sys; intros ?;
  first [apply off_set_cap | apply off_set_is_running | apply off_set_current]
  : frame.

Lemma mute_video_tick l t n : preserves (mute l) (video_tick t n).
Proof.
  unfold video_tick, cap_read, video_classify, detect_emotion,
    DeepFace_analyze, field, getitem, log_emotion, json_load, py_append,
    json_dump, notify. frame.
Qed.

Lemma mute_toggle_voice l :
  (forall b s, off s -> off (set_voice_enabled b s)) ->
  preserves (mute l) toggle_voice.
Proof.
  intros Hv. unfold toggle_voice.
  apply preserves_bind; [apply mute_modify_sys; intros s; apply Hv|intros _].
  frame.
Qed.

Lemma mute_gui_step l a w :
  no_toggle a \/ (forall b s, off s -> off (set_voice_enabled b s)) ->
  mute l w -> mute l (gui_step a w).
Proof.
  intros Ha H. destruct a as [cam_ok| | |now| |tid t]; cbn [gui_step];
    unfold callback.
  - destruct (start_button _); [|exact H]. clear Ha. revert w H.
    change (preserves (mute l) (start_camera cam_ok)).
    unfold start_camera, initialize_camera, update_gui. frame.
  - destruct (stop_button _); [|exact H]. clear Ha. revert w H.
    change (preserves (mute l) stop_camera).
    unfold stop_camera, cleanup. frame.
  - destruct Ha as [[]|Hv]. now apply mute_toggle_voice.
  - clear Ha. revert w H.
    change (preserves (mute l) (take_screenshot now)).
    unfold take_screenshot. frame.
  - destruct (timers _) as [|n]; [exact H|]. clear Ha. revert w H.
    change (preserves (mute l) (modify_gui (set_timers n);;; update_gui)).
    unfold update_gui. frame.
  - unfold bg_step. destruct (_ !! _) as [th|]; [|exact H].
    destruct (th_pc th); [exact H| |exact H].
    pose proof (mute_video_tick l t (th_count th) w H) as H'.
    destruct (video_tick _ _ _) as [[[[|] n]|e] w']; exact H'.
Qed.

Lemma mute_gui_run l sched : forall w,
  Forall no_toggle sched \/ (forall b s, off s -> off (set_voice_enabled b s)) ->
  mute l w -> mute l (gui_run sched w).
Proof.
  unfold gui_run. induction sched as [|a sched IH]; intros w Ha H;
    cbn [fold_left]; [exact H|].
  apply IH.
  - destruct Ha as [Ha|Ha]; [left|now right].
    now apply Forall_cons in Ha as [_ Ha].
  - apply mute_gui_step; [|exact H].
    destruct Ha as [Ha|Ha]; [left|now right].
    now apply Forall_cons in Ha as [Ha _].
Qed.
End Mute.

(** X14.  Two ways the notifier stays silent over a whole GUI session.
    Without a speech engine ([pyttsx3.init()] failed) no speech thread is
    ever started, on any schedule, whatever the voice toggle does.  And
    from any state with voice disabled, as long as Toggle Voice is not
    pressed, no further speech thread is started. *)
Theorem voice_stays_silent :
  (forall files sched,
     fired (trace (gui_run sched (init_world false files))) = []) /\
  (forall w sched,
     voice_enabled (sys w) = false -> Forall no_toggle sched ->
     fired (trace (gui_run sched w)) = fired (trace w)).
Proof.
  split.
  - intros files sched.
    apply (mute_gui_run (fun s => tts_engine s = false)); auto.
    + intros s ->. reflexivity.
    + split; reflexivity.
  - intros w sched Hoff Hall.
    apply (mute_gui_run (fun s => voice_enabled s = false)); auto.
    + intros s ->. apply orb_true_r.
    + split; [reflexivity | exact Hoff].
Qed.

Lemma voice_stays_silent_witness :
  fired (trace (gui_run
                  [Start true; ToggleVoice; ToggleVoice;
                   Bg 0 (sample_tick 1 (Raises "") 98);
                   Bg 0 (sample_tick 1 (Raises "") 98)]
                  (init_world false ∅))) = [] /\
  fired (trace (gui_run
                  [Bg 0 (sample_tick 1 (Raises "") 98);
                   Bg 0 (sample_tick 1 (Raises "") 98)]
                  (gui_run [Start true; ToggleVoice] (init_world true ∅)))) = [].
Proof.
  destruct voice_stays_silent as [Hengine Hoff].
  split; [apply Hengine|].
  apply (Hoff (gui_run [Start true; ToggleVoice] (init_world true ∅)));
    [reflexivity | repeat constructor].
Defined.

(** ** What [draw_emotion_info] draws *)

Definition color : Type := Z * Z * Z.

Definition white : color := (255, 255, 255)%Z.

(** [self.emotion_colors], BGR. *)
Definition emotion_colors : list (string * color) :=
  [("happy", (0, 255, 0)); ("sad", (255, 0, 0)); ("angry", (0, 0, 255));
   ("surprise", (255, 255, 0)); ("fear", (128, 0, 128));
   ("disgust", (0, 128, 128)); ("neutral", (128, 128, 128))]%Z.

(** [str.lower()] on ASCII labels. *)
Definition lower_ascii (c : ascii) : ascii :=
  let n := nat_of_ascii c in
  if Nat.leb 65 n && Nat.leb n 90 then ascii_of_nat (n + 32) else c.

Fixpoint lower (s : string) : string :=
  match s with
  | EmptyString => EmptyString
  | String c s' => String (lower_ascii c) (lower s')
  end.

(** [self.emotion_colors.get(label.lower(), (255, 255, 255))] *)
Definition color_of (label : string) : color :=
  default white (assoc (lower label) emotion_colors).

(** [int(x)] of a float: the fraction is cut off. *)
Definition py_int (q : Q) : Z := Z.quot (Qnum q) (Z.pos (Qden q)).

(** The texts drawn; the two that format a float keep it. *)
Inductive text :=
| Literal (s : string)
| Headline (label : string) (confidence : Q)  (* f"{label} - {confidence:.1f}%" *)
| BarLabel (emo : string) (conf : Q).         (* f"{emo}: {conf:.1f}%" *)

Inductive draw_op :=
| PutText (t : text) (org : Z * Z) (font_scale : Q) (c : color) (thickness : Z)
| Rectangle (pt1 pt2 : Z * Z) (c : color) (thickness : Z).  (* -1: filled *)

Definition y_start : Z := 60.
Definition bar_height : Z := 20.
Definition max_width : Z := 200.

(** The body of [for i, (emo, conf) in enumerate(all_emotions.items())]. *)
Definition bar_ops (i : nat) (entry : string * Q) : list draw_op :=
  let y_pos := (y_start + 25 + Z.of_nat i * 25)%Z in
  let bar_width := py_int ((snd entry / 100) * inject_Z max_width) in
  let emo_color := color_of (fst entry) in
  [Rectangle (10, y_pos)%Z (10 + bar_width, y_pos + bar_height)%Z emo_color (-1);
   Rectangle (10, y_pos)%Z (10 + max_width, y_pos + bar_height)%Z white 1;
   PutText (BarLabel (fst entry) (snd entry)) (220, y_pos + 15)%Z 0.4 white 1].

Definition instructions : list string :=
  ["Press 'q' to quit"; "Press 'v' to toggle voice"; "Press 's' to save screenshot"].

(** The drawing calls of [draw_emotion_info], in order, on a frame of shape
    (height, width). *)
Definition overlay (height width : Z) (emotion : string) (confidence : Q)
  (all_emotions : scores) : list draw_op :=
  [PutText (Headline (upper emotion) confidence) (10, 30)%Z 1 (color_of emotion) 2;
   PutText (Literal "Emotion Breakdown:") (10, y_start)%Z 0.5 white 1] ++
  concat (imap bar_ops all_emotions) ++
  imap (fun i instruction =>
          PutText (Literal instruction)
            (width - 250, height - 60 + Z.of_nat i * 20)%Z 0.4 (0, 255, 255)%Z 1)
       instructions.

Lemma concat_imap_lookup3 {A B} (f : nat -> A -> list B) (l : list A) :
  (forall j y, length (f j y) = 3%nat) ->
  forall i x k, l !! i = Some x -> (k < 3)%nat ->
    concat (imap f l) !! (3 * i + k)%nat = f i x !! k.
Proof.
  intros Hlen. revert f Hlen.
  induction l as [|y l IH]; intros f Hlen i x k Hi Hk; [discriminate|].
  cbn [imap concat]. destruct i as [|i].
  - injection Hi as ->. rewrite lookup_app_l by (rewrite Hlen; lia).
    reflexivity.
  - cbn in Hi. rewrite lookup_app_r by (rewrite Hlen; lia). rewrite Hlen.
    replace (3 * S i + k - 3)%nat with (3 * i + k)%nat by lia.
    apply (IH (f ∘ S)); auto. intros j z. apply Hlen.
Qed.

Lemma py_int_bounds q (b : Z) :
  (0 <= q)%Q -> (q <= inject_Z b)%Q -> (0 <= py_int q <= b)%Z.
Proof.
  destruct q as [num den]. unfold py_int, Qle, inject_Z. cbn.
  intros H0 Hb. rewrite Z.mul_1_r in H0.
  split.
  - apply Z.quot_pos; lia.
  - apply Z.quot_le_upper_bound; lia.
Qed.

Lemma lower_upper_ascii c : lower_ascii (upper_ascii c) = lower_ascii c.
Proof.
  destruct c as [[|] [|] [|] [|] [|] [|] [|] [|]]; reflexivity.
Qed.

Lemma lower_upper s : lower (upper s) = lower s.
Proof.
  induction s as [|c s IH]; simpl; [reflexivity|].
  now rewrite lower_upper_ascii, IH.
Qed.

(** X15.  The overlay of [draw_emotion_info].  For the i-th entry of the
    score mapping, the calls at positions 2+3i and 3+3i are the filled bar
    and its outline, both from (10, 85+25i), the outline 200 wide and 20
    high; when the score lies in [0, 100] the filled bar is between 0 and
    200 wide, so it stays within the outline; bars of different entries do
    not touch (the next one starts 5 below).  There are 5 + 3n calls for n
    entries, and colours are looked up without regard to case. *)
Theorem overlay_layout (height width : Z) (emotion : string) (confidence : Q)
  (all_emotions : scores) :
  length (overlay height width emotion confidence all_emotions)
    = (5 + 3 * length all_emotions)%nat /\
  (forall i emo conf,
     all_emotions !! i = Some (emo, conf) ->
     exists bar_width,
       overlay height width emotion confidence all_emotions !! (2 + 3 * i)%nat
         = Some (Rectangle (10, 85 + 25 * Z.of_nat i)%Z
                   (10 + bar_width, 85 + 25 * Z.of_nat i + 20)%Z
                   (color_of emo) (-1)) /\
       overlay height width emotion confidence all_emotions !! (3 + 3 * i)%nat
         = Some (Rectangle (10, 85 + 25 * Z.of_nat i)%Z
                   (210, 85 + 25 * Z.of_nat i + 20)%Z white 1) /\
       ((0 <= conf <= 100)%Q -> (0 <= bar_width <= 200)%Z) /\
       (85 + 25 * Z.of_nat i + 20 < 85 + 25 * Z.of_nat (S i))%Z) /\
  color_of (upper emotion) = color_of emotion.
Proof.
  assert (forall j y, length (bar_ops j y) = 3%nat) as Hlen by reflexivity.
  split; [|split].
  - unfold overlay. cbn [app length]. rewrite length_app. cbn [imap length].
    assert (forall (l : scores) f, (forall j y, length (f j y : list draw_op) = 3%nat) ->
              length (concat (imap f l)) = (3 * length l)%nat) as Hc.
    { clear. induction l as [|y l IH]; intros f Hf; [reflexivity|].
      cbn [imap concat length]. rewrite length_app, Hf, (IH (f ∘ S)); [lia|].
      intros j z. apply Hf. }
    rewrite (Hc _ _ Hlen). cbn [instructions imap length]. lia.
  - intros i emo conf Hi.
    exists (py_int ((conf / 100) * inject_Z max_width)).
    assert (3 * i + 1 < length (concat (imap bar_ops all_emotions)))%nat as Hin.
    { apply lookup_lt_is_Some.
      rewrite (concat_imap_lookup3 bar_ops all_emotions Hlen i _ 1 Hi) by lia.
      eauto. }
    unfold overlay.
    replace (2 + 3 * i)%nat with (S (S (3 * i + 0))) by lia.
    replace (3 + 3 * i)%nat with (S (S (3 * i + 1))) by lia.
    cbn [app]. rewrite !lookup_cons.
    rewrite !lookup_app_l by lia.
    rewrite (concat_imap_lookup3 bar_ops all_emotions Hlen i _ 0 Hi) by lia.
    rewrite (concat_imap_lookup3 bar_ops all_emotions Hlen i _ 1 Hi) by lia.
    unfold bar_ops, y_start, bar_height, max_width. rewrite !lookup_cons.
    cbn [fst snd].
    repeat match goal with |- _ /\ _ => split end.
    + do 3 f_equal; f_equal; lia.
    + do 3 f_equal; f_equal; lia.
    + intros [H0 H100]. apply py_int_bounds.
      * unfold Qdiv. change (/ 100)%Q with (1 # 100)%Q.
        change (inject_Z 200) with 200%Q. lra.
      * unfold Qdiv. change (/ 100)%Q with (1 # 100)%Q.
        change (inject_Z 200) with 200%Q. lra.
    + lia.
  - unfold color_of. now rewrite lower_upper.
Qed.

Lemma overlay_layout_witness :
  overlay 480 640 "happy" 82.3 sample_scores !! 4%nat
    = Some (PutText (BarLabel "angry" 0.5) (220, 100)%Z 0.4 white 1) /\
  exists bar_width,
    overlay 480 640 "happy" 82.3 sample_scores !! 5%nat
      = Some (Rectangle (10, 110)%Z (10 + bar_width, 130)%Z (0, 255, 0)%Z (-1)) /\
    (0 <= bar_width <= 200)%Z.
Proof.
  split; [reflexivity|].
  destruct (overlay_layout 480 640 "happy" 82.3%Q sample_scores)
    as (_ & Hbars & _).
  destruct (Hbars 1%nat "happy" 82.3%Q eq_refl) as (bw & Hfill & _ & Hfit & _).
  exists bw. split; [exact Hfill|]. apply Hfit.
  split; vm_compute; discriminate.
Defined.


(** ** Frames left in the queue *)

(** X16.  [stop_camera] does not empty the hand-off queue.  With a frame
    still queued: Stop leaves the queue as it is and sets the video label
    to "Camera stopped"; an [update_gui] call still pending then replaces
    that text by the queued frame although the session is stopped (and
    schedules nothing further); and Start shows the oldest frame left over
    from the stopped session before any new frame is read. *)
Theorem stale_frames_survive_stop w c frame_tk emotion confidence rest :
  stop_button (gui w) = true ->
  cap (sys w) = Some c ->
  frame_queue (gui w) = (frame_tk, emotion, confidence) :: rest ->
  (frame_queue (gui (gui_step Stop w)) = (frame_tk, emotion, confidence) :: rest /\
   video_label (gui (gui_step Stop w)) = (None, "Camera stopped")) /\
  (forall n, timers (gui w) = S n ->
     video_label (gui (gui_run [Stop; Timer] w)) = (Some frame_tk, "") /\
     frame_queue (gui (gui_run [Stop; Timer] w)) = rest /\
     g_is_running (gui (gui_run [Stop; Timer] w)) = false /\
     timers (gui (gui_run [Stop; Timer] w)) = n) /\
  (video_label (gui (gui_run [Stop; Start true] w)) = (Some frame_tk, "") /\
   emotion_label (gui (gui_run [Stop; Start true] w)) = "Emotion: " +:+ upper emotion /\
   frame_queue (gui (gui_run [Stop; Start true] w)) = rest /\
   analyses (trace (gui_run [Stop; Start true] w)) = analyses (trace w)).
Proof.
  intros Hsb Hcap Hq.
  assert (gui_step Stop w = snd (stop_camera w)) as Hstop
    by (cbn [gui_step]; now rewrite Hsb).
  rewrite (stop_camera_eq w c Hcap) in Hstop. cbn [snd] in Hstop.
  unfold gui_run. cbn [fold_left]. rewrite Hstop.
  set (ws := {| sys := _; gui := set_video_label _ _; fs := _; trace := _ |}).
  assert (frame_queue (gui ws) = (frame_tk, emotion, confidence) :: rest) as Hqs
    by exact Hq.
  assert (g_is_running (gui ws) = false) as Hruns by reflexivity.
  assert (timers (gui ws) = timers (gui w)) as Htms by reflexivity.
  assert (start_button (gui ws) = true) as Hsbs by reflexivity.
  assert (analyses (trace ws) = analyses (trace w)) as Hans.
  { subst ws. cbn [trace]. rewrite analyses_app. cbn [analyses]. lia. }
  split; [|split].
  - split; [exact Hqs | reflexivity].
  - clearbody ws. intros n Htm. cbn [gui_step]. rewrite Htms, Htm.
    unfold callback, bind, modify_gui. cbn [fst snd].
    set (w3 := {| sys := sys ws; gui := set_timers n (gui ws); fs := fs ws;
                  trace := trace ws |}).
    assert (frame_queue (gui w3) = (frame_tk, emotion, confidence) :: rest)
      as Hq3 by exact Hqs.
    assert (g_is_running (gui w3) = false) as Hrun3 by exact Hruns.
    assert (timers (gui w3) = n) as Htm3 by reflexivity.
    clearbody w3. rewrite update_gui_eq, Hq3. cbn [snd].
    unfold rescheduled.
    assert (g_is_running (gui (displayed (frame_tk, emotion, confidence) rest w3))
            = false) as -> by exact Hrun3.
    repeat split; try reflexivity; assumption.
  - clearbody ws. cbn [gui_step]. rewrite Hsbs. unfold callback.
    rewrite start_camera_ok_eq, update_gui_eq.
    assert (frame_queue (gui (started ws)) = (frame_tk, emotion, confidence) :: rest)
      as -> by exact Hqs.
    cbn [snd].
    destruct (rescheduled_display
                (displayed (frame_tk, emotion, confidence) rest (started ws)))
      as (-> & -> & -> & _).
    repeat split; try reflexivity.
    unfold rescheduled.
    assert (g_is_running (gui (displayed (frame_tk, emotion, confidence) rest
                                 (started ws))) = true) as -> by reflexivity.
    cbn [trace displayed started]. rewrite !analyses_app. cbn [analyses]. lia.
Qed.

Lemma stale_frames_survive_stop_witness :
  video_label (gui (gui_run [Stop; Timer] one_queued))
    = (Some (PhotoImage (Flip (Captured 1))), "") /\
  g_is_running (gui (gui_run [Stop; Timer] one_queued)) = false /\
  video_label (gui (gui_run [Stop; Start true] one_queued))
    = (Some (PhotoImage (Flip (Captured 1))), "").
Proof.
  destruct (stale_frames_survive_stop one_queued {| opened := true |}
              (PhotoImage (Flip (Captured 1))) "Unknown" 0%Q []
              eq_refl eq_refl eq_refl) as (_ & Htimer & Hstart & _).
  destruct (Htimer 0%nat eq_refl) as (Hv & _ & Hrun & _).
  split; [exact Hv|]. split; [exact Hrun | exact Hstart].
Defined.

(** ** Decimation in the GUI loop *)

(** X17.  [process_video] classifies every third frame.  On a pass that
    reads a frame the classifier is called exactly when the incremented
    frame counter is a multiple of 3, and at most once; on the other passes
    the system object is untouched and the frame is queued with the reading
    as it stands.  Over k passes from a fresh counter, all reading a frame,
    the loop is still running and the classifier has been called k / 3
    times. *)
Theorem gui_decimation (w : world) :
  cap (sys w) = Some {| opened := true |} ->
  (forall t n frame,
     t_read t = Some frame ->
     analyses (trace (snd (video_tick t n w))) =
       (analyses (trace w) + if Nat.eqb (S n mod 3) 0 then 1 else 0)%nat /\
     (S n mod 3 <> 0%nat ->
      sys (snd (video_tick t n w)) = sys w /\
      frame_queue (gui (snd (video_tick t n w))) =
        frame_queue (gui w) ++
        [(PhotoImage (Flip frame), current_emotion (sys w),
          current_confidence (sys w))])) /\
  (g_is_running (gui w) = true ->
   forall ticks,
     Forall (fun t => is_Some (t_read t)) ticks ->
     fst (process_video ticks 0 w) = Ok StillRunning /\
     analyses (trace (snd (process_video ticks 0 w))) =
       (analyses (trace w) + length ticks / 3)%nat).
Proof.
  intros Hcap. split.
  - intros t n frame Hread.
    destruct (video_tick_decimation t n frame w Hcap Hread)
      as (w' & -> & Han & _ & _ & Hbetween).
    split; [exact Han | exact Hbetween].
  - intros Hrun ticks Hall.
    destruct (process_video_decimation ticks 0 w Hall Hcap Hrun)
      as (w' & -> & Han).
    split; [reflexivity|]. cbn [snd]. rewrite Han. cbn. now rewrite Nat.sub_0_r.
Qed.

Lemma gui_decimation_witness :
  analyses (trace (snd (process_video
                          [sample_tick 1 (Faces [sample_face]) 1;
                           sample_tick 2 (Faces [sample_face]) 2;
                           sample_tick 3 (Faces [sample_face]) 3;
                           sample_tick 4 (Faces [sample_face]) 4;
                           sample_tick 5 (Faces [sample_face]) 5;
                           sample_tick 6 (Faces [sample_face]) 6;
                           sample_tick 7 (Faces [sample_face]) 7] 0
                          (snd (start_camera true (init_world true ∅))))))
  = 2%nat.
Proof.
  destruct (gui_decimation (snd (start_camera true (init_world true ∅))) eq_refl)
    as [_ Hrun].
  destruct (Hrun eq_refl
              [sample_tick 1 (Faces [sample_face]) 1;
               sample_tick 2 (Faces [sample_face]) 2;
               sample_tick 3 (Faces [sample_face]) 3;
               sample_tick 4 (Faces [sample_face]) 4;
               sample_tick 5 (Faces [sample_face]) 5;
               sample_tick 6 (Faces [sample_face]) 6;
               sample_tick 7 (Faces [sample_face]) 7]) as [_ Han].
  - repeat constructor; eexists; reflexivity.
  - exact Han.
Defined.
